(** * The course-grade factory of the LMS grades application

    A shallow embedding of [lms/djangoapps/grades/new/course_grade_factory.py]
    (class [CourseGradeFactory]) and the properties of its
    read / validate / recompute / persist / notify protocol.

    The Python code runs against a database table, a logger, two signals and
    a per-course cache.  Here all of them live in one explicit [World]: the
    table of persisted course grades is a finite map, and every call into a
    collaborator that has an effect appends an [Event] to a trace.  Python
    exceptions are the [Raise] results of a state-and-exception monad. *)

From Stdlib Require Import ZArith QArith Bool.
From stdpp Require Import gmap strings list.

Open Scope Z_scope.
Open Scope string_scope.
Open Scope list_scope.

(** ** Exceptions and results *)

(** The exception classes ([Exception] subclasses) that travel through the
    factory: [PersistentCourseGrade.DoesNotExist], the error of a
    [CourseData] built from no input, and whatever the grade computation
    raises. *)
Inductive Exception : Type :=
| DoesNotExist
| ConfigurationError
| CalculatorError (message : string).

Inductive Result (A : Type) : Type :=
| Raise (exc : Exception)
| Return (value : A).
Arguments Raise {A} exc.
Arguments Return {A} value.

Definition CourseKey : Type := string.
Definition PolicyHash : Type := string.
Definition Timestamp : Type := Z.

(** ** The objects the factory handles *)

Module User.
Record t : Type := { id : Z }.
End User.

Module Course.
(** [end_] is the course's [end] attribute (the deadline sent with the
    grade-changed signal). *)
Record t : Type := { id : CourseKey; end_ : option Timestamp }.
End Course.

(** The keyword arguments shared by [create], [read], [update] and [iter]. *)
Module CourseArgs.
Record t : Type := {
  course : option Course.t;
  collected_block_structure : option string;
  course_structure : option string;
  course_key : option CourseKey
}.
End CourseArgs.

Module CourseData.
(** Modelled from the spec: the class [CourseData] ([course_data.py] is
    not among the sources).  The record holds the attributes the factory
    reads from a course context: the course key, the content version and
    edit time, the hash of the grading policy, the course object (for its
    end date) and the collected block structure. *)
Record t : Type := {
  user : option User.t;
  course : Course.t;
  collected_structure : option string;
  course_key : CourseKey;
  version : option string;
  edited_on : option Timestamp;
  grading_policy_hash : PolicyHash
}.
End CourseData.

Module Breakdown.
(** Modelled from the spec: what the grade calculator computes,
    [compute(learner, CourseContext) -> {percent, letter_grade, passed,
    attempted}].  [passed] is tri-state (Python [True], [False], [None]). *)
Record t : Type := {
  percent : Q;
  letter_grade : option string;
  passed : option bool;
  attempted : bool
}.
End Breakdown.

Module CourseGrade.
(** Modelled from the spec: the classes [CourseGrade] and
    [ZeroCourseGrade] ([course_grade.py] is not among the sources): the
    in-memory grade with percent, letter grade, tri-state passed and the
    attempted flag. *)
Record t : Type := {
  user : User.t;
  course_data : CourseData.t;
  percent : Q;
  letter_grade : option string;
  passed : option bool;
  attempted : bool
}.

(** [CourseGrade(user, course_data, percent, letter_grade, passed)]. *)
Definition new (u : User.t) (cd : CourseData.t)
    (pct : Q) (letter : option string) (pass : option bool) : t :=
  {| user := u; course_data := cd; percent := pct; letter_grade := letter;
     passed := pass; attempted := false |}.

(** [CourseGrade(user, course_data)]: the object before [update()]. *)
Definition blank (u : User.t) (cd : CourseData.t) : t :=
  new u cd 0%Q None (Some false).

(** [ZeroCourseGrade(user, course_data)]: percent 0, empty letter grade,
    not passed, not attempted. *)
Definition zero (u : User.t) (cd : CourseData.t) : t :=
  {| user := u; course_data := cd; percent := 0%Q; letter_grade := None;
     passed := Some false; attempted := false |}.

(** The fields [update()] assigns, from what the calculator computed. *)
Definition assign (g : t) (b : Breakdown.t) : t :=
  {| user := user g; course_data := course_data g;
     percent := Breakdown.percent b;
     letter_grade := Breakdown.letter_grade b;
     passed := Breakdown.passed b;
     attempted := Breakdown.attempted b |}.
End CourseGrade.

(** Python truthiness of a tri-state value. *)
Definition truthy (v : option bool) : bool :=
  match v with Some true => true | _ => false end.

(** [v is True]. *)
Definition is_True (v : option bool) : bool :=
  match v with Some true => true | _ => false end.

Module PersistentCourseGrade.
(** Modelled from the spec: the model class [PersistentCourseGrade]
    ([models.py] is not among the sources): one row per (learner, course),
    read by key or reported absent, and upserted. *)
Record t : Type := {
  user_id : Z;
  course_id : CourseKey;
  course_version : option string;
  course_edited_timestamp : option Timestamp;
  grading_policy_hash : PolicyHash;
  percent_grade : Q;
  letter_grade : string;
  passed_timestamp : option Timestamp
}.

Abbreviation table := (gmap (Z * CourseKey) t).

(** [PersistentCourseGrade.read(user_id, course_id)]. *)
Definition read (rows : table) (uid : Z) (ck : CourseKey) : Result t :=
  match rows !! (uid, ck) with
  | Some row => Return row
  | None => Raise DoesNotExist
  end.

(** [PersistentCourseGrade.update_or_create(...)]: the row written for the
    keyword arguments; a timestamp is present exactly when [passed] holds. *)
Definition row_of (now : Timestamp) (uid : Z) (ck : CourseKey)
    (ver : option string) (edited : option Timestamp) (hash : PolicyHash)
    (pct : Q) (letter : string) (pass : option bool) : t :=
  {| user_id := uid; course_id := ck; course_version := ver;
     course_edited_timestamp := edited; grading_policy_hash := hash;
     percent_grade := pct; letter_grade := letter;
     passed_timestamp := if truthy pass then Some now else None |}.

Definition update_or_create (rows : table) (row : t) : table :=
  <[(user_id row, course_id row) := row]> rows.
End PersistentCourseGrade.

(** ** The world: the grade table, the clock and the trace of effects *)

Inductive Event : Type :=
| LogInfo (what : string) (user_id : Z)
| LogException (user_id : Z) (course_key : CourseKey) (exc : Exception)
| GradeComputed (user : User.t) (course_data : CourseData.t)
| SubsectionsBulkCreated (user : User.t) (course_data : CourseData.t)
| GradeUpserted (row : PersistentCourseGrade.t)
| GradeChangedSent (user : User.t) (course_grade : CourseGrade.t)
    (course_key : CourseKey) (deadline : option Timestamp)
| GradeNowPassedSent (user : User.t) (course_key : CourseKey)
| CacheCleared (course_key : CourseKey)
| TimerEntered (tags : list string)
| TimerExited (tags : list string).

Record World : Type := {
  grades : PersistentCourseGrade.table;
  now : Timestamp;
  trace : list Event
}.

(** ** A state-and-exception monad for the factory's methods *)

Definition M (A : Type) : Type := World → Result A * World.

Definition ret {A} (a : A) : M A := fun w => (Return a, w).
Definition raise {A} (e : Exception) : M A := fun w => (Raise e, w).
Definition bind {A B} (m : M A) (k : A → M B) : M B :=
  fun w => match m w with
           | (Return a, w') => k a w'
           | (Raise e, w') => (Raise e, w')
           end.
Definition lift {A} (r : Result A) : M A := fun w => (r, w).

Notation "'do' x <- m ; k" := (bind m (fun x => k))
  (at level 10, x name, m at level 100, k at level 200,
   format "'[v' 'do'  x  <-  m ; '/' k ']'").
Notation "m ;; k" := (bind m (fun _ => k))
  (at level 100, k at level 200, right associativity).

(** [try: body except handled_class as exc: handler exc]: [handles] says
    which exceptions the [except] clause catches; the handler runs in the
    world the body left behind. *)
Definition try_except {A} (body : M A) (handles : Exception → bool)
    (handler : Exception → M A) : M A :=
  fun w => match body w with
           | (Raise e, w') => if handles e then handler e w' else (Raise e, w')
           | r => r
           end.

(** The world after more events: the table and the clock stay. *)
Definition record (w : World) (events : list Event) : World :=
  {| grades := grades w; now := now w; trace := trace w ++ events |}.

Definition emit (e : Event) : M unit :=
  fun w => (Return tt, record w [e]).

Definition is_DoesNotExist (e : Exception) : bool :=
  match e with DoesNotExist => true | _ => false end.

(** Every class of [Exception] is caught by [except Exception]. *)
Definition is_Exception (e : Exception) : bool := true.

(** ** The collaborators, lifted to the world *)

Definition PersistentCourseGrade_read (uid : Z) (ck : CourseKey)
    : M PersistentCourseGrade.t :=
  fun w => (PersistentCourseGrade.read (grades w) uid ck, w).

Definition PersistentCourseGrade_update_or_create (uid : Z) (ck : CourseKey)
    (ver : option string) (edited : option Timestamp) (hash : PolicyHash)
    (pct : Q) (letter : string) (pass : option bool) : M unit :=
  fun w =>
    let row := PersistentCourseGrade.row_of (now w) uid ck ver edited hash
                 pct letter pass in
    (Return tt,
     {| grades := PersistentCourseGrade.update_or_create (grades w) row;
        now := now w;
        trace := trace w ++ [GradeUpserted row] |}).

(** ** Reading a trace *)

Definition is_upsert (e : Event) : bool :=
  match e with GradeUpserted _ => true | _ => false end.

Definition is_computation (e : Event) : bool :=
  match e with GradeComputed _ _ => true | _ => false end.

Definition is_notification (e : Event) : bool :=
  match e with
  | GradeChangedSent _ _ _ _ | GradeNowPassedSent _ _ => true
  | _ => false
  end.

Definition is_cache_clear (e : Event) : bool :=
  match e with CacheCleared _ => true | _ => false end.

Definition count (p : Event → bool) (t : list Event) : nat :=
  length (List.filter p t).

Definition notifications (t : list Event) : list Event :=
  List.filter is_notification t.

(** [VisibleBlocks.clear_cache(course_key)]. *)
Definition VisibleBlocks_clear_cache (ck : CourseKey) : M unit :=
  emit (CacheCleared ck).

(** The configuration predicates, the waffle switch, the construction of a
    course context and the grade calculator: collaborators whose code is
    outside the factory. *)
Record Collaborators : Type := {
  CourseData_init : option User.t → CourseArgs.t → Result CourseData.t;
  assume_zero_if_absent : CourseKey → bool;
  should_persist_grades : CourseKey → bool;
  WRITE_ONLY_IF_ENGAGED : bool;
  compute : User.t → CourseData.t → Result Breakdown.t
}.

(** ** The factory *)

Module CourseGradeFactory.

(** [GradeResult = namedtuple('GradeResult', ['student', 'course_grade',
    'error'])]; Python [None] is [None]. *)
Record GradeResult : Type := {
  student : User.t;
  course_grade : option CourseGrade.t;
  error : option Exception
}.

(** How the [try] statement of [create] ends: with a [return], or by
    falling through to the final [_update] with [read_only] set. *)
Inductive Flow : Type :=
| Returned (course_grade : CourseGrade.t)
| FallThrough (read_only : bool).

Definition is_not_None {A} (v : option A) : bool :=
  match v with Some _ => true | None => false end.

(** [x or ""]. *)
Definition or_empty (v : option string) : string :=
  match v with
  | Some s => if String.eqb s "" then "" else s
  | None => ""
  end.

Section Methods.
Context (env : Collaborators).

(** Modelled from the spec: [course_grade.update()], the call into the
    grade calculator; it either raises or assigns percent, letter grade,
    passed and attempted. *)
Definition CourseGrade_update (g : CourseGrade.t) : M CourseGrade.t :=
  emit (GradeComputed (CourseGrade.user g) (CourseGrade.course_data g)) ;;
  do b <- lift (compute env (CourseGrade.user g)
                  (CourseGrade.course_data g));
  ret (CourseGrade.assign g b).

Definition _create_zero (user : User.t) (course_data : CourseData.t)
    : M CourseGrade.t :=
  emit (LogInfo "CreateZero" (User.id user)) ;;
  ret (CourseGrade.zero user course_data).

Definition _read (user : User.t) (course_data : CourseData.t)
    : M (CourseGrade.t * PolicyHash) :=
  if negb (should_persist_grades env (CourseData.course_key course_data))
  then raise DoesNotExist
  else
    do persistent_grade <-
      PersistentCourseGrade_read (User.id user)
        (CourseData.course_key course_data);
    let course_grade :=
      CourseGrade.new user course_data
        (PersistentCourseGrade.percent_grade persistent_grade)
        (Some (PersistentCourseGrade.letter_grade persistent_grade))
        (Some (is_not_None
                 (PersistentCourseGrade.passed_timestamp persistent_grade)))
    in
    emit (LogInfo "Read" (User.id user)) ;;
    ret (course_grade,
         PersistentCourseGrade.grading_policy_hash persistent_grade).

Definition _update (user : User.t) (course_data : CourseData.t)
    (read_only : bool) : M CourseGrade.t :=
  do course_grade <- CourseGrade_update (CourseGrade.blank user course_data);
  let should_persist :=
    negb read_only &&
    should_persist_grades env (CourseData.course_key course_data) &&
    (negb (WRITE_ONLY_IF_ENGAGED env) || CourseGrade.attempted course_grade)
  in
  (if should_persist
   then
     emit (SubsectionsBulkCreated user course_data) ;;
     PersistentCourseGrade_update_or_create
       (User.id user)
       (CourseData.course_key course_data)
       (CourseData.version course_data)
       (CourseData.edited_on course_data)
       (CourseData.grading_policy_hash course_data)
       (CourseGrade.percent course_grade)
       (or_empty (CourseGrade.letter_grade course_grade))
       (CourseGrade.passed course_grade)
   else ret tt) ;;
  emit (GradeChangedSent user course_grade
          (CourseData.course_key course_data)
          (Course.end_ (CourseData.course course_data))) ;;
  (if is_True (CourseGrade.passed course_grade)
   then emit (GradeNowPassedSent user (CourseData.course_key course_data))
   else ret tt) ;;
  emit (LogInfo "Update" (User.id user)) ;;
  ret course_grade.

Definition create (user : User.t) (args : CourseArgs.t)
    : M CourseGrade.t :=
  do course_data <- lift (CourseData_init env (Some user) args);
  do flow <-
    try_except
      (do found <- _read user course_data;
       let '(course_grade, read_policy_hash) := found in
       if String.eqb read_policy_hash
            (CourseData.grading_policy_hash course_data)
       then ret (Returned course_grade)
       else ret (FallThrough false))
      is_DoesNotExist
      (fun _ =>
         if assume_zero_if_absent env (CourseData.course_key course_data)
         then do zero <- _create_zero user course_data;
              ret (Returned zero)
         else ret (FallThrough true));
  match flow with
  | Returned course_grade => ret course_grade
  | FallThrough read_only => _update user course_data read_only
  end.

(** [read] returns a grade or Python [None]. *)
Definition read (user : User.t) (args : CourseArgs.t)
    : M (option CourseGrade.t) :=
  do course_data <- lift (CourseData_init env (Some user) args);
  try_except
    (do found <- _read user course_data;
     let '(course_grade, _) := found in
     ret (Some course_grade))
    is_DoesNotExist
    (fun _ =>
       if assume_zero_if_absent env (CourseData.course_key course_data)
       then do zero <- _create_zero user course_data;
            ret (Some zero)
       else ret None).

Definition update (user : User.t) (args : CourseArgs.t)
    : M CourseGrade.t :=
  do course_data <- lift (CourseData_init env (Some user) args);
  _update user course_data false.

Definition _iter_grade_result (user : User.t) (course_data : CourseData.t)
    (force_update : bool) : M GradeResult :=
  try_except
    (let method := if force_update then update else create in
     do course_grade <-
       method user
         {| CourseArgs.course := Some (CourseData.course course_data);
            CourseArgs.collected_block_structure :=
              CourseData.collected_structure course_data;
            CourseArgs.course_structure := None;
            CourseArgs.course_key :=
              Some (CourseData.course_key course_data) |};
     ret {| student := user; course_grade := Some course_grade;
            error := None |})
    is_Exception
    (fun exc =>
       emit (LogException (User.id user)
               (CourseData.course_key course_data) exc) ;;
       ret {| student := user; course_grade := None;
              error := Some exc |}).
(** *** [iter]: a generator

    [iter] is a generator function: calling it runs nothing, and each
    [next] runs its body up to the following [yield].  The generator
    object is the state it is suspended in. *)

(** What can be thrown into a suspended generator at its [yield]:
    [GeneratorExit] (by [close()], also when an abandoned generator is
    collected) or an exception (by [throw()]). *)
Inductive Thrown : Type :=
| GeneratorExit
| Thrown_exc (exc : Exception).

Inductive Generator : Type :=
| Created (users : list User.t) (args : CourseArgs.t)
    (force_update : bool)
| Suspended (course_data : CourseData.t) (stats_tags : list string)
    (users : list User.t) (force_update : bool)
| Finished.

(** The outcome of [next()]: a yielded value, [StopIteration], or an
    exception that leaves the generator. *)
Inductive Step : Type :=
| Yielded (result : GradeResult)
| StopIteration
| Propagated (exc : Thrown).

Definition iter (users : list User.t) (args : CourseArgs.t)
    (force_update : bool) : Generator :=
  Created users args force_update.

(** [_course_transaction] is a [@contextmanager] generator whose body is
    [yield; VisibleBlocks.clear_cache(course_key)].  Entering runs it up
    to the [yield]: nothing. *)
Definition _course_transaction_enter (course_key : CourseKey) : M unit :=
  ret tt.

(** Leaving the [with] block: without an exception the body resumes
    after the [yield]; with one, the exception is thrown in at the
    [yield], which no [try] guards, so the rest of the body is skipped
    and the exception goes on. *)
Definition _course_transaction_exit (course_key : CourseKey)
    (exc : option Thrown) : M unit :=
  match exc with
  | None => VisibleBlocks_clear_cache course_key
  | Some _ => ret tt
  end.

(** [dog_stats_api.timer(...)]: entered before the result is computed
    and left when the generator is resumed (or torn down) after the
    [yield]. *)
Definition timer_enter (tags : list string) : M unit :=
  emit (TimerEntered tags).
Definition timer_exit (tags : list string) : M unit :=
  emit (TimerExited tags).

(** An exception leaves the body of the [for] loop: both [with] blocks
    are left with it. *)
Definition unwind (course_data : CourseData.t) (tags : list string)
    (exc : Thrown) (w : World) : World :=
  let w1 := snd (timer_exit tags w) in
  snd (_course_transaction_exit (CourseData.course_key course_data)
         (Some exc) w1).

(** The [for user in users] loop, from its head. *)
Definition loop (course_data : CourseData.t) (tags : list string)
    (users : list User.t) (force_update : bool) (w : World)
    : Step * Generator * World :=
  match users with
  | [] =>
      let w1 :=
        snd (_course_transaction_exit
               (CourseData.course_key course_data) None w) in
      (StopIteration, Finished, w1)
  | user :: rest =>
      let w1 := snd (timer_enter tags w) in
      match _iter_grade_result user course_data force_update w1 with
      | (Return result, w2) =>
          (Yielded result,
           Suspended course_data tags rest force_update, w2)
      | (Raise exc, w2) =>
          (Propagated (Thrown_exc exc), Finished,
           unwind course_data tags (Thrown_exc exc) w2)
      end
  end.

Definition next (g : Generator) (w : World) : Step * Generator * World :=
  match g with
  | Created users args force_update =>
      match CourseData_init env None
              {| CourseArgs.course := CourseArgs.course args;
                 CourseArgs.collected_block_structure :=
                   CourseArgs.collected_block_structure args;
                 CourseArgs.course_structure := None;
                 CourseArgs.course_key := CourseArgs.course_key args |}
      with
      | Raise exc => (Propagated (Thrown_exc exc), Finished, w)
      | Return course_data =>
          let stats_tags :=
            [String.append "action:" (CourseData.course_key course_data)] in
          let w1 :=
            snd (_course_transaction_enter
                   (CourseData.course_key course_data) w) in
          loop course_data stats_tags users force_update w1
      end
  | Suspended course_data tags users force_update =>
      let w1 := snd (timer_exit tags w) in
      loop course_data tags users force_update w1
  | Finished => (StopIteration, Finished, w)
  end.

(** [throw(exc)], and [close()] as the throw of [GeneratorExit]: a
    generator that has not started, or has finished, runs none of its
    body. *)
Definition throw (exc : Thrown) (g : Generator) (w : World)
    : Generator * World :=
  match g with
  | Suspended course_data tags _ _ =>
      (Finished, unwind course_data tags exc w)
  | Created _ _ _ | Finished => (Finished, w)
  end.

Definition close (g : Generator) (w : World) : Generator * World :=
  throw GeneratorExit g w.

(** A consumer that asks for at most [n] elements. *)
Fixpoint take (n : nat) (g : Generator) (w : World)
    : list GradeResult * Generator * World :=
  match n with
  | O => ([], g, w)
  | S n' =>
      match next g w with
      | (Yielded result, g', w') =>
          let '(results, g'', w'') := take n' g' w' in
          (result :: results, g'', w'')
      | (_, g', w') => ([], g', w')
      end
  end.

(** The users the generator has still to grade. *)
Definition pending (g : Generator) : list User.t :=
  match g with
  | Created users _ _ | Suspended _ _ users _ => users
  | Finished => []
  end.

(** [for result in generator: ...] (or [list(generator)]): [next] until
    [StopIteration]. *)
Definition consume (g : Generator) (w : World)
    : list GradeResult * Generator * World :=
  take (S (length (pending g))) g w.

(** A consumer that takes [n] elements and then stops: the generator is
    closed (by [close()], or when the abandoned object is collected). *)
Definition take_then_close (n : nat) (g : Generator) (w : World)
    : list GradeResult * Generator * World :=
  let '(results, g', w') := take n g w in
  let '(g'', w'') := close g' w' in
  (results, g'', w'').

(** A consumer that takes [n] elements and then calls [throw(exc)]. *)
Definition take_then_throw (n : nat) (exc : Exception) (g : Generator)
    (w : World) : list GradeResult * Generator * World :=
  let '(results, g', w') := take n g w in
  let '(g'', w'') := throw (Thrown_exc exc) g' w' in
  (results, g'', w'').
End Methods.
End CourseGradeFactory.

(** ** Sample collaborators and worlds *)

Module Sample.
Definition alice : User.t := {| User.id := 1 |}.
Definition bob : User.t := {| User.id := 2 |}.

Definition demo : Course.t :=
  {| Course.id := "course-v1:edX+DemoX+T1"; Course.end_ := Some 1500000000 |}.

Definition args : CourseArgs.t :=
  {| CourseArgs.course := Some demo;
     CourseArgs.collected_block_structure := None;
     CourseArgs.course_structure := None;
     CourseArgs.course_key := None |}.

(** A course context is built from a course object or from a bare key; with
    neither, construction fails. *)
Definition resolve (u : option User.t) (a : CourseArgs.t)
    : Result CourseData.t :=
  let build (c : Course.t) :=
    Return {| CourseData.user := u; CourseData.course := c;
              CourseData.collected_structure :=
                CourseArgs.collected_block_structure a;
              CourseData.course_key := Course.id c;
              CourseData.version := Some "v7";
              CourseData.edited_on := Some 1490000000;
              CourseData.grading_policy_hash := "hash-2" |} in
  match CourseArgs.course a, CourseArgs.course_key a with
  | Some c, _ => build c
  | None, Some k => build {| Course.id := k; Course.end_ := None |}
  | None, None => Raise ConfigurationError
  end.

Definition context (u : option User.t) : CourseData.t :=
  {| CourseData.user := u; CourseData.course := demo;
     CourseData.collected_structure := None;
     CourseData.course_key := Course.id demo;
     CourseData.version := Some "v7";
     CourseData.edited_on := Some 1490000000;
     CourseData.grading_policy_hash := "hash-2" |}.

(** Alice passes with 80%; Bob has attempted nothing; nobody else can be
    graded. *)
Definition calculator (u : User.t) (cd : CourseData.t)
    : Result Breakdown.t :=
  if Z.eqb (User.id u) 1 then
    Return {| Breakdown.percent := 4 # 5;
              Breakdown.letter_grade := Some "Pass";
              Breakdown.passed := Some true;
              Breakdown.attempted := true |}
  else if Z.eqb (User.id u) 2 then
    Return {| Breakdown.percent := 0;
              Breakdown.letter_grade := None;
              Breakdown.passed := Some false;
              Breakdown.attempted := false |}
  else Raise (CalculatorError "no such learner").

Definition env (assume_zero persist engaged_only : bool) : Collaborators :=
  {| CourseData_init := resolve;
     assume_zero_if_absent := fun _ => assume_zero;
     should_persist_grades := fun _ => persist;
     WRITE_ONLY_IF_ENGAGED := engaged_only;
     compute := calculator |}.

(** A row stored for [u] under the policy [hash]. *)
Definition row (u : User.t) (hash : PolicyHash) : PersistentCourseGrade.t :=
  {| PersistentCourseGrade.user_id := User.id u;
     PersistentCourseGrade.course_id := Course.id demo;
     PersistentCourseGrade.course_version := Some "v6";
     PersistentCourseGrade.course_edited_timestamp := Some 1480000000;
     PersistentCourseGrade.grading_policy_hash := hash;
     PersistentCourseGrade.percent_grade := 1 # 2;
     PersistentCourseGrade.letter_grade := "Pass";
     PersistentCourseGrade.passed_timestamp := Some 1485000000 |}.

Definition empty_world : World :=
  {| grades := ∅; now := 1495000000; trace := [] |}.

Definition world_with (r : PersistentCourseGrade.t) : World :=
  {| grades := PersistentCourseGrade.update_or_create ∅ r;
     now := 1495000000; trace := [] |}.
End Sample.


(** ** Notions used to state the properties *)

(** The grade [_read] builds from a stored row. *)
Definition as_read (user : User.t) (cd : CourseData.t)
    (row : PersistentCourseGrade.t) : CourseGrade.t :=
  CourseGrade.new user cd
    (PersistentCourseGrade.percent_grade row)
    (Some (PersistentCourseGrade.letter_grade row))
    (Some (CourseGradeFactory.is_not_None
             (PersistentCourseGrade.passed_timestamp row))).

(** Whether [_update] writes: its [should_persist]. *)
Definition writes (env : Collaborators) (read_only : bool)
    (cd : CourseData.t) (g : CourseGrade.t) : bool :=
  negb read_only &&
  should_persist_grades env (CourseData.course_key cd) &&
  (negb (WRITE_ONLY_IF_ENGAGED env) || CourseGrade.attempted g).

(** The row [_update] writes for a computed grade. *)
Definition row_written (user : User.t) (cd : CourseData.t)
    (g : CourseGrade.t) (w : World) : PersistentCourseGrade.t :=
  PersistentCourseGrade.row_of (now w) (User.id user)
    (CourseData.course_key cd) (CourseData.version cd)
    (CourseData.edited_on cd) (CourseData.grading_policy_hash cd)
    (CourseGrade.percent g)
    (CourseGradeFactory.or_empty (CourseGrade.letter_grade g))
    (CourseGrade.passed g).

(** A run that never reads the trace: from a world it is the run from the
    same table and clock with an empty trace, with its events appended. *)
Definition reset (w : World) : World :=
  {| grades := grades w; now := now w; trace := [] |}.

Definition replay (w : World) (fresh : World) : World :=
  {| grades := grades fresh; now := now fresh;
     trace := trace w ++ trace fresh |}.

Definition write_only {A} (m : M A) : Prop :=
  ∀ w, m w = (fst (m (reset w)), replay w (snd (m (reset w)))).

(** The number of cache invalidations so far. *)
Definition cache_clears (w : World) : nat := count is_cache_clear (trace w).

Definition keeps_cache {A} (m : M A) : Prop :=
  ∀ w, cache_clears (snd (m w)) = cache_clears w.

(** The call [method(user, course_data.course,
    course_data.collected_structure, course_key=course_data.course_key)]
    inside [_iter_grade_result]. *)
Definition graded (env : Collaborators) (force_update : bool)
    (user : User.t) (cd : CourseData.t) : M CourseGrade.t :=
  (if force_update then CourseGradeFactory.update env
   else CourseGradeFactory.create env)
    user
    {| CourseArgs.course := Some (CourseData.course cd);
       CourseArgs.collected_block_structure :=
         CourseData.collected_structure cd;
       CourseArgs.course_structure := None;
       CourseArgs.course_key := Some (CourseData.course_key cd) |}.

(** The arguments [iter] builds its shared course context from. *)
Definition iter_args (args : CourseArgs.t) : CourseArgs.t :=
  {| CourseArgs.course := CourseArgs.course args;
     CourseArgs.collected_block_structure :=
       CourseArgs.collected_block_structure args;
     CourseArgs.course_structure := None;
     CourseArgs.course_key := CourseArgs.course_key args |}.

Definition stats_tags (cd : CourseData.t) : list string :=
  [String.append "action:" (CourseData.course_key cd)].

(** The result [_iter_grade_result] builds for a learner from the outcome of
    the method call. *)
Definition result_of (user : User.t) (r : Result CourseGrade.t)
    : CourseGradeFactory.GradeResult :=
  match r with
  | Return g =>
      {| CourseGradeFactory.student := user;
         CourseGradeFactory.course_grade := Some g;
         CourseGradeFactory.error := None |}
  | Raise exc =>
      {| CourseGradeFactory.student := user;
         CourseGradeFactory.course_grade := None;
         CourseGradeFactory.error := Some exc |}
  end.

(** A generator of [iter] that has [users] still to grade against the shared
    course context [cd]: suspended at its [yield], or not yet started with
    arguments from which the context resolves to [cd]. *)
Definition live (env : Collaborators) (cd : CourseData.t)
    (force_update : bool) (users : list User.t)
    (g : CourseGradeFactory.Generator) : Prop :=
  (∃ tags, g = CourseGradeFactory.Suspended cd tags users force_update) ∨
  (∃ args, g = CourseGradeFactory.Created users args force_update ∧
           CourseData_init env None (iter_args args) = Return cd).

(** Exactly one of the grade and the error of a result is set. *)
Definition well_formed (r : CourseGradeFactory.GradeResult) : Prop :=
  (is_Some (CourseGradeFactory.course_grade r) ∧
   CourseGradeFactory.error r = None) ∨
  (CourseGradeFactory.course_grade r = None ∧
   is_Some (CourseGradeFactory.error r)).

(** The collaborators with a calculator failure injected for one learner. *)
Definition with_failure (env : Collaborators) (learner : Z) (exc : Exception)
    : Collaborators :=
  {| CourseData_init := CourseData_init env;
     assume_zero_if_absent := assume_zero_if_absent env;
     should_persist_grades := should_persist_grades env;
     WRITE_ONLY_IF_ENGAGED := WRITE_ONLY_IF_ENGAGED env;
     compute := fun u cd =>
       if Z.eqb (User.id u) learner then Raise exc else compute env u cd |}.

(** Two worlds with the same clock and the same rows for everybody but
    [learner]. *)
Definition same_elsewhere (learner : Z) (w1 w2 : World) : Prop :=
  now w1 = now w2 ∧
  ∀ uid ck, uid ≠ learner → grades w1 !! (uid, ck) = grades w2 !! (uid, ck).

Definition agree (learner : Z) {A} (m1 m2 : M A) : Prop :=
  ∀ w1 w2, same_elsewhere learner w1 w2 →
    fst (m1 w1) = fst (m2 w2) ∧
    same_elsewhere learner (snd (m1 w1)) (snd (m2 w2)).

Definition confined (learner : Z) {A} (m : M A) : Prop :=
  ∀ w, same_elsewhere learner w (snd (m w)).

(** The events of [iter]'s own plumbing: the timer around each learner and
    the cache invalidation at the end. *)
Definition is_timer (e : Event) : bool :=
  match e with TimerEntered _ | TimerExited _ => true | _ => false end.

Definition is_plumbing (e : Event) : bool :=
  is_timer e || is_cache_clear e.

Definition is_logged_exception (e : Event) : bool :=
  match e with LogException _ _ _ => true | _ => false end.

(** The line [_iter_grade_result] logs for a learner that could not be
    graded. *)
Definition logged (user : User.t) (cd : CourseData.t)
    (r : Result CourseGrade.t) : list Event :=
  match r with
  | Raise exc => [LogException (User.id user) (CourseData.course_key cd) exc]
  | Return _ => []
  end.

Definition has_error (r : CourseGradeFactory.GradeResult) : bool :=
  CourseGradeFactory.is_not_None (CourseGradeFactory.error r).

(** A run that leaves the number of events of one kind as it was. *)
Definition keeps (p : Event → bool) {A} (m : M A) : Prop :=
  ∀ w, count p (trace (snd (m w))) = count p (trace w).

(** ** The monad's equations *)

Lemma record_record w a b : record (record w a) b = record w (a ++ b).
Proof. unfold record; simpl. by rewrite app_assoc. Qed.

Lemma count_app p a b : count p (a ++ b) = (count p a + count p b)%nat.
Proof. unfold count. by rewrite List.filter_app, length_app. Qed.

Lemma notifications_app a b :
  notifications (a ++ b) = notifications a ++ notifications b.
Proof. apply List.filter_app. Qed.

Example sample_fast_path :
  CourseGradeFactory.create (Sample.env false true false) Sample.alice
    Sample.args (Sample.world_with (Sample.row Sample.alice "hash-2"))
  = (Return (CourseGrade.new Sample.alice (Sample.context (Some Sample.alice))
               (1 # 2) (Some "Pass") (Some true)),
     record (Sample.world_with (Sample.row Sample.alice "hash-2"))
       [LogInfo "Read" 1]).
Proof. vm_compute. reflexivity. Qed.

Ltac run :=
  unfold bind, lift, ret, raise, emit, try_except,
    PersistentCourseGrade_read, PersistentCourseGrade_update_or_create,
    VisibleBlocks_clear_cache; simpl.

(** ** The internal read and the recomputation *)

Section Protocol.
Context (env : Collaborators).
Import CourseGradeFactory.

Implicit Types (user : User.t) (cd : CourseData.t) (w : World).

Lemma _read_disabled user cd w :
  should_persist_grades env (CourseData.course_key cd) = false →
  _read env user cd w = (Raise DoesNotExist, w).
Proof. intros H. unfold _read. rewrite H. reflexivity. Qed.

Lemma _read_absent user cd w :
  grades w !! (User.id user, CourseData.course_key cd) = None →
  _read env user cd w = (Raise DoesNotExist, w).
Proof.
  intros H. unfold _read.
  destruct (should_persist_grades env _); simpl; [|reflexivity].
  run. unfold PersistentCourseGrade.read. by rewrite H.
Qed.

Lemma _read_found user cd w row :
  should_persist_grades env (CourseData.course_key cd) = true →
  grades w !! (User.id user, CourseData.course_key cd) = Some row →
  _read env user cd w =
    (Return (as_read user cd row,
             PersistentCourseGrade.grading_policy_hash row),
     record w [LogInfo "Read" (User.id user)]).
Proof.
  intros Hp H. unfold _read. rewrite Hp. run.
  unfold PersistentCourseGrade.read. by rewrite H.
Qed.

Lemma _update_raises user cd read_only w exc :
  compute env user cd = Raise exc →
  _update env user cd read_only w =
    (Raise exc, record w [GradeComputed user cd]).
Proof.
  intros H. unfold _update, CourseGrade_update. run. by rewrite H.
Qed.

Lemma _update_returns user cd read_only w b :
  compute env user cd = Return b →
  let g := CourseGrade.assign (CourseGrade.blank user cd) b in
  let w' := snd (_update env user cd read_only w) in
  fst (_update env user cd read_only w) = Return g ∧
  now w' = now w ∧
  grades w' =
    (if writes env read_only cd g
     then <[(User.id user, CourseData.course_key cd)
             := row_written user cd g w]> (grades w)
     else grades w) ∧
  trace w' =
    trace w ++ [GradeComputed user cd] ++
    (if writes env read_only cd g
     then [SubsectionsBulkCreated user cd;
           GradeUpserted (row_written user cd g w)]
     else []) ++
    [GradeChangedSent user g (CourseData.course_key cd)
       (Course.end_ (CourseData.course cd))] ++
    (if is_True (CourseGrade.passed g)
     then [GradeNowPassedSent user (CourseData.course_key cd)]
     else []) ++
    [LogInfo "Update" (User.id user)].
Proof.
  intros H g w'. subst w' g.
  unfold _update, CourseGrade_update, writes, row_written. run.
  rewrite H. simpl.
  destruct (negb read_only && _ && _); simpl;
    destruct (is_True (Breakdown.passed b)); simpl;
    repeat split; rewrite <- ?app_assoc; reflexivity.
Qed.

(** *** The four ways through [create] *)

Lemma create_fast user args cd w row :
  CourseData_init env (Some user) args = Return cd →
  should_persist_grades env (CourseData.course_key cd) = true →
  grades w !! (User.id user, CourseData.course_key cd) = Some row →
  PersistentCourseGrade.grading_policy_hash row
    = CourseData.grading_policy_hash cd →
  create env user args w =
    (Return (as_read user cd row),
     record w [LogInfo "Read" (User.id user)]).
Proof.
  intros Hcd Hp Hrow Hhash. unfold create, bind, lift, try_except.
  rewrite Hcd, (_read_found _ _ _ row Hp Hrow), Hhash, String.eqb_refl.
  reflexivity.
Qed.

Lemma create_stale user args cd w row :
  CourseData_init env (Some user) args = Return cd →
  should_persist_grades env (CourseData.course_key cd) = true →
  grades w !! (User.id user, CourseData.course_key cd) = Some row →
  PersistentCourseGrade.grading_policy_hash row
    ≠ CourseData.grading_policy_hash cd →
  create env user args w =
    _update env user cd false (record w [LogInfo "Read" (User.id user)]).
Proof.
  intros Hcd Hp Hrow Hhash. unfold create, bind, lift, try_except.
  rewrite Hcd, (_read_found _ _ _ row Hp Hrow).
  apply String.eqb_neq in Hhash. rewrite Hhash. simpl.
  by destruct (_update env user cd false _) as [[?|?] ?].
Qed.

Lemma create_not_found user args cd w :
  CourseData_init env (Some user) args = Return cd →
  _read env user cd w = (Raise DoesNotExist, w) →
  create env user args w =
    if assume_zero_if_absent env (CourseData.course_key cd)
    then (Return (CourseGrade.zero user cd),
          record w [LogInfo "CreateZero" (User.id user)])
    else _update env user cd true w.
Proof.
  intros Hcd Hread. unfold create, bind, lift, try_except.
  rewrite Hcd, Hread. simpl.
  destruct (assume_zero_if_absent env _); simpl; [reflexivity|].
  by destruct (_update env user cd true w) as [[?|?] ?].
Qed.

Lemma read_not_found user args cd w :
  CourseData_init env (Some user) args = Return cd →
  _read env user cd w = (Raise DoesNotExist, w) →
  read env user args w =
    if assume_zero_if_absent env (CourseData.course_key cd)
    then (Return (Some (CourseGrade.zero user cd)),
          record w [LogInfo "CreateZero" (User.id user)])
    else (Return None, w).
Proof.
  intros Hcd Hread. unfold read, bind, lift, try_except.
  rewrite Hcd, Hread. simpl.
  by destruct (assume_zero_if_absent env _).
Qed.

Lemma update_unfold user args cd w :
  CourseData_init env (Some user) args = Return cd →
  update env user args w = _update env user cd false w.
Proof. intros Hcd. unfold update, bind, lift. by rewrite Hcd. Qed.
End Protocol.

(** ** Reading the store: fast path, absence and disabled persistence *)

(** C1 (as amended): when persistence is enabled for the course and the
    store holds a grade whose grading policy hash equals the context's
    current hash, [create] returns the stored grade as it is: the grade
    calculator is not invoked, the table is not written and no notification
    is sent. *)
Theorem create_returns_stored_grade_when_policy_unchanged
    (env : Collaborators) (user : User.t) (args : CourseArgs.t)
    (cd : CourseData.t) (w : World) (row : PersistentCourseGrade.t) :
  CourseData_init env (Some user) args = Return cd →
  should_persist_grades env (CourseData.course_key cd) = true →
  grades w !! (User.id user, CourseData.course_key cd) = Some row →
  PersistentCourseGrade.grading_policy_hash row
    = CourseData.grading_policy_hash cd →
  let after := snd (CourseGradeFactory.create env user args w) in
  fst (CourseGradeFactory.create env user args w)
    = Return (CourseGrade.new user cd
                (PersistentCourseGrade.percent_grade row)
                (Some (PersistentCourseGrade.letter_grade row))
                (Some (CourseGradeFactory.is_not_None
                         (PersistentCourseGrade.passed_timestamp row)))) ∧
  grades after = grades w ∧
  count is_computation (trace after) = count is_computation (trace w) ∧
  count is_upsert (trace after) = count is_upsert (trace w) ∧
  notifications (trace after) = notifications (trace w).
Proof.
  intros Hcd Hp Hrow Hhash after. subst after.
  rewrite (create_fast env user args cd w row Hcd Hp Hrow Hhash). simpl.
  rewrite !count_app, notifications_app. simpl.
  rewrite app_nil_r. unfold count. simpl. repeat split; lia.
Qed.

Lemma create_returns_stored_grade_when_policy_unchanged_witness :
  let env := Sample.env false true false in
  let w := Sample.world_with (Sample.row Sample.alice "hash-2") in
  let after := snd (CourseGradeFactory.create env Sample.alice Sample.args w) in
  fst (CourseGradeFactory.create env Sample.alice Sample.args w)
    = Return (CourseGrade.new Sample.alice (Sample.context (Some Sample.alice))
                (1 # 2) (Some "Pass") (Some true)) ∧
  grades after = grades w ∧
  count is_computation (trace after) = count is_computation (trace w) ∧
  count is_upsert (trace after) = count is_upsert (trace w) ∧
  notifications (trace after) = notifications (trace w).
Proof.
  exact (create_returns_stored_grade_when_policy_unchanged
           (Sample.env false true false) Sample.alice Sample.args
           (Sample.context (Some Sample.alice))
           (Sample.world_with (Sample.row Sample.alice "hash-2"))
           (Sample.row Sample.alice "hash-2")
           eq_refl eq_refl eq_refl eq_refl).
Defined.

(** C1 (as stated) fails: persistence is disabled for the course, the table
    holds Alice's grade under the current policy hash, and [create] still
    recomputes and notifies. *)
Lemma create_recomputes_a_matching_stored_grade_when_persistence_is_off :
  let env := Sample.env false false false in
  let w := Sample.world_with (Sample.row Sample.alice "hash-2") in
  let cd := Sample.context (Some Sample.alice) in
  let computed :=
    CourseGrade.assign (CourseGrade.blank Sample.alice cd)
      {| Breakdown.percent := 4 # 5; Breakdown.letter_grade := Some "Pass";
         Breakdown.passed := Some true; Breakdown.attempted := true |} in
  CourseData_init env (Some Sample.alice) Sample.args = Return cd ∧
  grades w !! (User.id Sample.alice, CourseData.course_key cd)
    = Some (Sample.row Sample.alice "hash-2") ∧
  PersistentCourseGrade.grading_policy_hash (Sample.row Sample.alice "hash-2")
    = CourseData.grading_policy_hash cd ∧
  CourseGradeFactory.create env Sample.alice Sample.args w
    = (Return computed,
       record w [GradeComputed Sample.alice cd;
                 GradeChangedSent Sample.alice computed
                   (CourseData.course_key cd) (Some 1500000000);
                 GradeNowPassedSent Sample.alice (CourseData.course_key cd);
                 LogInfo "Update" 1]).
Proof. vm_compute. repeat split; reflexivity. Qed.

(** C7: when the store has no entry for the learner and the course, and
    assume-zero-if-absent is true, [create] and [read] both return a zero
    grade (percent 0, not passed, not attempted) and nothing is written to
    the store. *)
Theorem create_and_read_return_zero_grade_when_absent
    (env : Collaborators) (user : User.t) (args : CourseArgs.t)
    (cd : CourseData.t) (w : World) :
  CourseData_init env (Some user) args = Return cd →
  grades w !! (User.id user, CourseData.course_key cd) = None →
  assume_zero_if_absent env (CourseData.course_key cd) = true →
  ∃ g : CourseGrade.t,
    fst (CourseGradeFactory.create env user args w) = Return g ∧
    fst (CourseGradeFactory.read env user args w) = Return (Some g) ∧
    CourseGrade.percent g = 0%Q ∧
    CourseGrade.passed g = Some false ∧
    CourseGrade.attempted g = false ∧
    grades (snd (CourseGradeFactory.create env user args w)) = grades w ∧
    grades (snd (CourseGradeFactory.read env user args w)) = grades w ∧
    count is_upsert (trace (snd (CourseGradeFactory.create env user args w)))
      = count is_upsert (trace w) ∧
    count is_upsert (trace (snd (CourseGradeFactory.read env user args w)))
      = count is_upsert (trace w).
Proof.
  intros Hcd Habsent Hzero.
  pose proof (_read_absent env user cd w Habsent) as Hread.
  rewrite (create_not_found env user args cd w Hcd Hread),
    (read_not_found env user args cd w Hcd Hread), Hzero.
  exists (CourseGrade.zero user cd). simpl.
  rewrite count_app. change (count is_upsert [_]) with 0%nat.
  repeat split; try reflexivity; lia.
Qed.

Lemma create_and_read_return_zero_grade_when_absent_witness :
  ∃ g : CourseGrade.t,
    fst (CourseGradeFactory.create (Sample.env true true false) Sample.alice
           Sample.args Sample.empty_world) = Return g ∧
    fst (CourseGradeFactory.read (Sample.env true true false) Sample.alice
           Sample.args Sample.empty_world) = Return (Some g) ∧
    CourseGrade.percent g = 0%Q ∧
    CourseGrade.passed g = Some false ∧
    CourseGrade.attempted g = false ∧
    grades (snd (CourseGradeFactory.create (Sample.env true true false)
                   Sample.alice Sample.args Sample.empty_world))
      = grades Sample.empty_world ∧
    grades (snd (CourseGradeFactory.read (Sample.env true true false)
                   Sample.alice Sample.args Sample.empty_world))
      = grades Sample.empty_world ∧
    count is_upsert
      (trace (snd (CourseGradeFactory.create (Sample.env true true false)
                     Sample.alice Sample.args Sample.empty_world)))
      = count is_upsert (trace Sample.empty_world) ∧
    count is_upsert
      (trace (snd (CourseGradeFactory.read (Sample.env true true false)
                     Sample.alice Sample.args Sample.empty_world)))
      = count is_upsert (trace Sample.empty_world).
Proof.
  exact (create_and_read_return_zero_grade_when_absent
           (Sample.env true true false) Sample.alice Sample.args
           (Sample.context (Some Sample.alice)) Sample.empty_world
           eq_refl eq_refl eq_refl).
Defined.

(** C10: when persistence is disabled for the course, the internal read
    raises the not-found error whatever the store holds, so [create] either
    returns a zero grade or recomputes (never the fast path), and [read]
    returns a zero grade or nothing (never a stored grade). *)
Theorem disabled_persistence_hides_stored_grades
    (env : Collaborators) (user : User.t) (args : CourseArgs.t)
    (cd : CourseData.t) (w : World) :
  CourseData_init env (Some user) args = Return cd →
  should_persist_grades env (CourseData.course_key cd) = false →
  CourseGradeFactory._read env user cd w = (Raise DoesNotExist, w) ∧
  CourseGradeFactory.create env user args w =
    (if assume_zero_if_absent env (CourseData.course_key cd)
     then (Return (CourseGrade.zero user cd),
           record w [LogInfo "CreateZero" (User.id user)])
     else CourseGradeFactory._update env user cd true w) ∧
  CourseGradeFactory.read env user args w =
    (if assume_zero_if_absent env (CourseData.course_key cd)
     then (Return (Some (CourseGrade.zero user cd)),
           record w [LogInfo "CreateZero" (User.id user)])
     else (Return None, w)).
Proof.
  intros Hcd Hoff.
  pose proof (_read_disabled env user cd w Hoff) as Hread.
  split; [exact Hread|].
  split; [by apply create_not_found | by apply read_not_found].
Qed.

Lemma disabled_persistence_hides_stored_grades_witness :
  let env := Sample.env false false false in
  let w := Sample.world_with (Sample.row Sample.alice "hash-2") in
  let cd := Sample.context (Some Sample.alice) in
  grades w !! (User.id Sample.alice, CourseData.course_key cd)
    = Some (Sample.row Sample.alice "hash-2") ∧
  CourseGradeFactory._read env Sample.alice cd w = (Raise DoesNotExist, w) ∧
  CourseGradeFactory.create env Sample.alice Sample.args w =
    CourseGradeFactory._update env Sample.alice cd true w ∧
  CourseGradeFactory.read env Sample.alice Sample.args w = (Return None, w).
Proof.
  split; [reflexivity|].
  exact (disabled_persistence_hides_stored_grades
           (Sample.env false false false) Sample.alice Sample.args
           (Sample.context (Some Sample.alice))
           (Sample.world_with (Sample.row Sample.alice "hash-2"))
           eq_refl eq_refl).
Defined.

(** ** Recomputation: what [_update] leaves behind *)

Section Recomputation.
Context (env : Collaborators).
Import CourseGradeFactory.

Implicit Types (user : User.t) (cd : CourseData.t) (w : World).

Lemma _update_computes_once user cd read_only w :
  count is_computation (trace (snd (_update env user cd read_only w)))
    = S (count is_computation (trace w)).
Proof.
  destruct (compute env user cd) as [exc|b] eqn:Hc.
  - rewrite (_update_raises env user cd read_only w exc Hc). simpl.
    rewrite count_app. change (count _ [_]) with 1%nat. lia.
  - destruct (_update_returns env user cd read_only w b Hc) as (_ & _ & _ & Ht).
    rewrite Ht, !count_app.
    destruct (writes env read_only cd _), (is_True _); unfold count; simpl; lia.
Qed.

Lemma _update_read_only user cd w :
  grades (snd (_update env user cd true w)) = grades w ∧
  count is_upsert (trace (snd (_update env user cd true w)))
    = count is_upsert (trace w).
Proof.
  destruct (compute env user cd) as [exc|b] eqn:Hc.
  - rewrite (_update_raises env user cd true w exc Hc). simpl.
    rewrite count_app. change (count _ [_]) with 0%nat. split; [done|lia].
  - destruct (_update_returns env user cd true w b Hc) as (_ & _ & Hg & Ht).
    rewrite Hg, Ht, !count_app. unfold writes. simpl.
    destruct (is_True _); unfold count; simpl; split; (done || lia).
Qed.

Lemma _update_upserts user cd read_only w b :
  compute env user cd = Return b →
  count is_upsert (trace (snd (_update env user cd read_only w)))
    = (count is_upsert (trace w) +
       if writes env read_only cd
            (CourseGrade.assign (CourseGrade.blank user cd) b)
       then 1 else 0)%nat.
Proof.
  intros Hc.
  destruct (_update_returns env user cd read_only w b Hc) as (_ & _ & _ & Ht).
  rewrite Ht, !count_app.
  destruct (writes env read_only cd _), (is_True _); unfold count; simpl; lia.
Qed.

Lemma _update_persists user cd w b :
  compute env user cd = Return b →
  should_persist_grades env (CourseData.course_key cd) = true →
  WRITE_ONLY_IF_ENGAGED env = false ∨ Breakdown.attempted b = true →
  ∃ stored : PersistentCourseGrade.t,
    fst (_update env user cd false w)
      = Return (CourseGrade.assign (CourseGrade.blank user cd) b) ∧
    grades (snd (_update env user cd false w))
      !! (User.id user, CourseData.course_key cd) = Some stored ∧
    PersistentCourseGrade.grading_policy_hash stored
      = CourseData.grading_policy_hash cd ∧
    In (GradeUpserted stored) (trace (snd (_update env user cd false w))).
Proof.
  intros Hc Hp Hgate.
  destruct (_update_returns env user cd false w b Hc) as (Hr & _ & Hg & Ht).
  assert (writes env false cd
            (CourseGrade.assign (CourseGrade.blank user cd) b) = true) as Hw.
  { unfold writes. rewrite Hp. simpl.
    destruct Hgate as [-> | ->]; [done | by rewrite orb_true_r]. }
  rewrite Hw in Hg, Ht.
  eexists. split; [exact Hr|]. split; [|split].
  - rewrite Hg. apply lookup_insert_eq.
  - reflexivity.
  - rewrite Ht. apply in_or_app. right. simpl. auto.
Qed.

Lemma _update_notifies user cd read_only w b :
  compute env user cd = Return b →
  let g := CourseGrade.assign (CourseGrade.blank user cd) b in
  notifications (trace (snd (_update env user cd read_only w)))
    = notifications (trace w) ++
      GradeChangedSent user g (CourseData.course_key cd)
        (Course.end_ (CourseData.course cd)) ::
      match CourseGrade.passed g with
      | Some true => [GradeNowPassedSent user (CourseData.course_key cd)]
      | _ => []
      end.
Proof.
  intros Hc g.
  destruct (_update_returns env user cd read_only w b Hc) as (_ & _ & _ & Ht).
  rewrite Ht, !notifications_app. fold g. f_equal.
  destruct (writes env read_only cd g); simpl;
    by destruct (Breakdown.passed b) as [[|]|].
Qed.
End Recomputation.

(** ** Stale policy, first computation, notifications *)

(** C2 (as amended): when persistence is enabled for the course and a grade
    is stored whose grading policy hash differs from the context's current
    hash, [create] recomputes with [read_only] false and, provided the
    engagement gate is disabled or the computed grade is attempted, upserts
    a row whose grading policy hash is the context's current hash. *)
Theorem create_recomputes_and_persists_after_policy_change
    (env : Collaborators) (user : User.t) (args : CourseArgs.t)
    (cd : CourseData.t) (w : World) (row : PersistentCourseGrade.t) :
  CourseData_init env (Some user) args = Return cd →
  should_persist_grades env (CourseData.course_key cd) = true →
  grades w !! (User.id user, CourseData.course_key cd) = Some row →
  PersistentCourseGrade.grading_policy_hash row
    ≠ CourseData.grading_policy_hash cd →
  CourseGradeFactory.create env user args w
    = CourseGradeFactory._update env user cd false
        (record w [LogInfo "Read" (User.id user)]) ∧
  count is_computation
    (trace (snd (CourseGradeFactory.create env user args w)))
    = S (count is_computation (trace w)) ∧
  ∀ b : Breakdown.t,
    compute env user cd = Return b →
    WRITE_ONLY_IF_ENGAGED env = false ∨ Breakdown.attempted b = true →
    ∃ stored : PersistentCourseGrade.t,
      fst (CourseGradeFactory.create env user args w)
        = Return (CourseGrade.assign (CourseGrade.blank user cd) b) ∧
      grades (snd (CourseGradeFactory.create env user args w))
        !! (User.id user, CourseData.course_key cd) = Some stored ∧
      PersistentCourseGrade.grading_policy_hash stored
        = CourseData.grading_policy_hash cd ∧
      In (GradeUpserted stored)
        (trace (snd (CourseGradeFactory.create env user args w))).
Proof.
  intros Hcd Hp Hrow Hstale.
  rewrite (create_stale env user args cd w row Hcd Hp Hrow Hstale).
  split; [reflexivity|]. split.
  - rewrite _update_computes_once. simpl. rewrite count_app.
    change (count _ [_]) with 0%nat. lia.
  - intros b Hc Hgate. by apply _update_persists.
Qed.

Lemma create_recomputes_and_persists_after_policy_change_witness :
  let env := Sample.env false true false in
  let w := Sample.world_with (Sample.row Sample.alice "hash-1") in
  let cd := Sample.context (Some Sample.alice) in
  CourseGradeFactory.create env Sample.alice Sample.args w
    = CourseGradeFactory._update env Sample.alice cd false
        (record w [LogInfo "Read" 1]) ∧
  count is_computation
    (trace (snd (CourseGradeFactory.create env Sample.alice Sample.args w)))
    = S (count is_computation (trace w)) ∧
  ∀ b : Breakdown.t,
    compute env Sample.alice cd = Return b →
    WRITE_ONLY_IF_ENGAGED env = false ∨ Breakdown.attempted b = true →
    ∃ stored : PersistentCourseGrade.t,
      fst (CourseGradeFactory.create env Sample.alice Sample.args w)
        = Return (CourseGrade.assign (CourseGrade.blank Sample.alice cd) b) ∧
      grades (snd (CourseGradeFactory.create env Sample.alice Sample.args w))
        !! (User.id Sample.alice, CourseData.course_key cd) = Some stored ∧
      PersistentCourseGrade.grading_policy_hash stored
        = CourseData.grading_policy_hash cd ∧
      In (GradeUpserted stored)
        (trace (snd (CourseGradeFactory.create env Sample.alice Sample.args w))).
Proof.
  refine (create_recomputes_and_persists_after_policy_change
            (Sample.env false true false) Sample.alice Sample.args
            (Sample.context (Some Sample.alice))
            (Sample.world_with (Sample.row Sample.alice "hash-1"))
            (Sample.row Sample.alice "hash-1")
            eq_refl eq_refl eq_refl _).
  simpl. discriminate.
Defined.

(** C2 (as stated) fails: persistence is disabled for the course and
    assume-zero-if-absent is true; the table holds Alice's grade under an
    older policy hash, and [create] returns a zero grade without any
    recomputation. *)
Lemma create_skips_a_stale_stored_grade_when_persistence_is_off :
  let env := Sample.env true false false in
  let w := Sample.world_with (Sample.row Sample.alice "hash-1") in
  let cd := Sample.context (Some Sample.alice) in
  CourseData_init env (Some Sample.alice) Sample.args = Return cd ∧
  grades w !! (User.id Sample.alice, CourseData.course_key cd)
    = Some (Sample.row Sample.alice "hash-1") ∧
  PersistentCourseGrade.grading_policy_hash (Sample.row Sample.alice "hash-1")
    ≠ CourseData.grading_policy_hash cd ∧
  CourseGradeFactory.create env Sample.alice Sample.args w
    = (Return (CourseGrade.zero Sample.alice cd),
       record w [LogInfo "CreateZero" 1]) ∧
  count is_computation
    (trace (snd (CourseGradeFactory.create env Sample.alice Sample.args w)))
    = 0%nat.
Proof. vm_compute. repeat split; (reflexivity || discriminate). Qed.

(** C3 (as amended): when no grade is stored and assume-zero-if-absent is
    false, [create] recomputes a fresh grade and does not persist it
    ([read_only] is true, no upsert reaches the store); a stale-policy
    recomputation (persistence enabled, stored grade with another hash) is
    persisted, provided the engagement gate is disabled or the grade is
    attempted. *)
Theorem create_keeps_first_grade_unpersisted_but_persists_stale
    (env : Collaborators) (user : User.t) (args : CourseArgs.t)
    (cd : CourseData.t) :
  CourseData_init env (Some user) args = Return cd →
  (∀ w : World,
     grades w !! (User.id user, CourseData.course_key cd) = None →
     assume_zero_if_absent env (CourseData.course_key cd) = false →
     let after := snd (CourseGradeFactory.create env user args w) in
     CourseGradeFactory.create env user args w
       = CourseGradeFactory._update env user cd true w ∧
     count is_computation (trace after) = S (count is_computation (trace w)) ∧
     (∀ b, compute env user cd = Return b →
           fst (CourseGradeFactory.create env user args w)
             = Return (CourseGrade.assign (CourseGrade.blank user cd) b)) ∧
     grades after = grades w ∧
     count is_upsert (trace after) = count is_upsert (trace w)) ∧
  (∀ (w : World) (row : PersistentCourseGrade.t) (b : Breakdown.t),
     should_persist_grades env (CourseData.course_key cd) = true →
     grades w !! (User.id user, CourseData.course_key cd) = Some row →
     PersistentCourseGrade.grading_policy_hash row
       ≠ CourseData.grading_policy_hash cd →
     compute env user cd = Return b →
     WRITE_ONLY_IF_ENGAGED env = false ∨ Breakdown.attempted b = true →
     let after := snd (CourseGradeFactory.create env user args w) in
     ∃ stored : PersistentCourseGrade.t,
       grades after !! (User.id user, CourseData.course_key cd)
         = Some stored ∧
       PersistentCourseGrade.grading_policy_hash stored
         = CourseData.grading_policy_hash cd ∧
       count is_upsert (trace after) = S (count is_upsert (trace w))).
Proof.
  intros Hcd. split.
  - intros w Habsent Hzero after. subst after.
    pose proof (_read_absent env user cd w Habsent) as Hread.
    rewrite (create_not_found env user args cd w Hcd Hread), Hzero.
    split; [reflexivity|]. split; [apply _update_computes_once|].
    split; [|apply _update_read_only].
    intros b Hc. by destruct (_update_returns env user cd true w b Hc).
  - intros w row b Hp Hrow Hstale Hc Hgate after. subst after.
    rewrite (create_stale env user args cd w row Hcd Hp Hrow Hstale).
    destruct (_update_persists env user cd
                (record w [LogInfo "Read" (User.id user)]) b Hc Hp Hgate)
      as (stored & _ & Hs & Hh & _).
    exists stored. split; [exact Hs|]. split; [exact Hh|].
    rewrite (_update_upserts env user cd false _ b Hc).
    assert (writes env false cd
              (CourseGrade.assign (CourseGrade.blank user cd) b) = true) as ->.
    { unfold writes. rewrite Hp. simpl.
      destruct Hgate as [-> | ->]; [done | by rewrite orb_true_r]. }
    simpl. rewrite count_app. change (count _ [_]) with 0%nat. lia.
Qed.

Lemma create_keeps_first_grade_unpersisted_but_persists_stale_witness :
  let env := Sample.env false true false in
  let cd := Sample.context (Some Sample.alice) in
  let stale := Sample.world_with (Sample.row Sample.alice "hash-1") in
  (CourseGradeFactory.create env Sample.alice Sample.args Sample.empty_world
     = CourseGradeFactory._update env Sample.alice cd true Sample.empty_world ∧
   grades (snd (CourseGradeFactory.create env Sample.alice Sample.args
                  Sample.empty_world)) = grades Sample.empty_world ∧
   count is_upsert
     (trace (snd (CourseGradeFactory.create env Sample.alice Sample.args
                    Sample.empty_world))) = 0%nat) ∧
  (∃ stored : PersistentCourseGrade.t,
     grades (snd (CourseGradeFactory.create env Sample.alice Sample.args stale))
       !! (User.id Sample.alice, CourseData.course_key cd) = Some stored ∧
     PersistentCourseGrade.grading_policy_hash stored
       = CourseData.grading_policy_hash cd ∧
     count is_upsert
       (trace (snd (CourseGradeFactory.create env Sample.alice Sample.args
                      stale))) = 1%nat).
Proof.
  destruct (create_keeps_first_grade_unpersisted_but_persists_stale
              (Sample.env false true false) Sample.alice Sample.args
              (Sample.context (Some Sample.alice)) eq_refl) as [Hfirst Hstale].
  split.
  - destruct (Hfirst Sample.empty_world eq_refl eq_refl)
      as (Hpath & _ & _ & Hgrades & Hupserts).
    split; [exact Hpath|]. split; [exact Hgrades | exact Hupserts].
  - refine (Hstale (Sample.world_with (Sample.row Sample.alice "hash-1"))
              (Sample.row Sample.alice "hash-1")
              {| Breakdown.percent := 4 # 5;
                 Breakdown.letter_grade := Some "Pass";
                 Breakdown.passed := Some true;
                 Breakdown.attempted := true |}
              eq_refl eq_refl _ eq_refl (or_introl eq_refl)).
    simpl. discriminate.
Defined.

(** C3 (as stated) fails in its second half: persistence is enabled, the
    engagement gate is on and Bob has attempted nothing; his stored grade
    has an older policy hash, [create] recomputes it, and nothing is
    written: the stored row keeps the old hash. *)
Lemma create_leaves_a_stale_unattempted_grade_unpersisted :
  let env := Sample.env false true true in
  let w := Sample.world_with (Sample.row Sample.bob "hash-1") in
  let cd := Sample.context (Some Sample.bob) in
  let after := snd (CourseGradeFactory.create env Sample.bob Sample.args w) in
  CourseData_init env (Some Sample.bob) Sample.args = Return cd ∧
  grades w !! (User.id Sample.bob, CourseData.course_key cd)
    = Some (Sample.row Sample.bob "hash-1") ∧
  PersistentCourseGrade.grading_policy_hash (Sample.row Sample.bob "hash-1")
    ≠ CourseData.grading_policy_hash cd ∧
  count is_computation (trace after) = 1%nat ∧
  count is_upsert (trace after) = 0%nat ∧
  grades after !! (User.id Sample.bob, CourseData.course_key cd)
    = Some (Sample.row Sample.bob "hash-1").
Proof. vm_compute. repeat split; (reflexivity || discriminate). Qed.

(** C6: on every recomputation path ([create] on a miss or on a stale
    policy, and every [update]) that resolves a grade, a grade-changed
    notification is sent with the resolved grade and the course's end date,
    and a grade-newly-passed notification is sent as well if and only if the
    resolved grade's [passed] is exactly true. *)
Theorem recomputation_notifies
    (env : Collaborators) (user : User.t) (args : CourseArgs.t)
    (cd : CourseData.t) (b : Breakdown.t) :
  CourseData_init env (Some user) args = Return cd →
  compute env user cd = Return b →
  let g := CourseGrade.assign (CourseGrade.blank user cd) b in
  let sent :=
    GradeChangedSent user g (CourseData.course_key cd)
      (Course.end_ (CourseData.course cd)) ::
    match CourseGrade.passed g with
    | Some true => [GradeNowPassedSent user (CourseData.course_key cd)]
    | _ => []
    end in
  (∀ w : World,
     fst (CourseGradeFactory.update env user args w) = Return g ∧
     notifications (trace (snd (CourseGradeFactory.update env user args w)))
       = notifications (trace w) ++ sent) ∧
  (∀ (w : World) (row : PersistentCourseGrade.t),
     should_persist_grades env (CourseData.course_key cd) = true →
     grades w !! (User.id user, CourseData.course_key cd) = Some row →
     PersistentCourseGrade.grading_policy_hash row
       ≠ CourseData.grading_policy_hash cd →
     fst (CourseGradeFactory.create env user args w) = Return g ∧
     notifications (trace (snd (CourseGradeFactory.create env user args w)))
       = notifications (trace w) ++ sent) ∧
  (∀ w : World,
     should_persist_grades env (CourseData.course_key cd) = false ∨
     grades w !! (User.id user, CourseData.course_key cd) = None →
     assume_zero_if_absent env (CourseData.course_key cd) = false →
     fst (CourseGradeFactory.create env user args w) = Return g ∧
     notifications (trace (snd (CourseGradeFactory.create env user args w)))
       = notifications (trace w) ++ sent) ∧
  (In (GradeNowPassedSent user (CourseData.course_key cd)) sent
   ↔ CourseGrade.passed g = Some true).
Proof.
  intros Hcd Hc g sent.
  assert (∀ w,
            should_persist_grades env (CourseData.course_key cd) = false ∨
            grades w !! (User.id user, CourseData.course_key cd) = None →
            CourseGradeFactory._read env user cd w = (Raise DoesNotExist, w))
    as Hmiss.
  { intros w [Hoff | Habsent];
      [by apply _read_disabled | by apply _read_absent]. }
  split; [|split; [|split]].
  - intros w. rewrite (update_unfold env user args cd w Hcd).
    split; [by destruct (_update_returns env user cd false w b Hc)|].
    apply (_update_notifies env user cd false w b Hc).
  - intros w row Hp Hrow Hstale.
    rewrite (create_stale env user args cd w row Hcd Hp Hrow Hstale).
    split.
    + by destruct (_update_returns env user cd false
                     (record w [LogInfo "Read" (User.id user)]) b Hc).
    + rewrite (_update_notifies env user cd false _ b Hc). simpl.
      rewrite notifications_app. simpl. by rewrite app_nil_r.
  - intros w Hnone Hzero.
    rewrite (create_not_found env user args cd w Hcd (Hmiss w Hnone)), Hzero.
    split; [by destruct (_update_returns env user cd true w b Hc)|].
    apply (_update_notifies env user cd true w b Hc).
  - subst sent. simpl. split.
    + intros [Hin|Hin]; [discriminate|].
      by destruct (Breakdown.passed b) as [[|]|]; simpl in Hin.
    + intros ->. simpl. auto.
Qed.

Lemma recomputation_notifies_witness :
  let env := Sample.env false true false in
  let cd := Sample.context (Some Sample.alice) in
  let g :=
    CourseGrade.assign (CourseGrade.blank Sample.alice cd)
      {| Breakdown.percent := 4 # 5; Breakdown.letter_grade := Some "Pass";
         Breakdown.passed := Some true; Breakdown.attempted := true |} in
  fst (CourseGradeFactory.update env Sample.alice Sample.args
         Sample.empty_world) = Return g ∧
  notifications
    (trace (snd (CourseGradeFactory.update env Sample.alice Sample.args
                   Sample.empty_world)))
    = [GradeChangedSent Sample.alice g (CourseData.course_key cd)
         (Some 1500000000);
       GradeNowPassedSent Sample.alice (CourseData.course_key cd)].
Proof.
  destruct (recomputation_notifies
              (Sample.env false true false) Sample.alice Sample.args
              (Sample.context (Some Sample.alice))
              {| Breakdown.percent := 4 # 5;
                 Breakdown.letter_grade := Some "Pass";
                 Breakdown.passed := Some true;
                 Breakdown.attempted := true |}
              eq_refl eq_refl) as (Hupdate & _).
  exact (Hupdate Sample.empty_world).
Defined.

(** ** [update]: unconditional recomputation *)

Lemma _update_result_ignores_world
    (env : Collaborators) (user : User.t) (cd : CourseData.t)
    (read_only : bool) (w1 w2 : World) :
  fst (CourseGradeFactory._update env user cd read_only w1)
    = fst (CourseGradeFactory._update env user cd read_only w2).
Proof.
  destruct (compute env user cd) as [exc|b] eqn:Hc.
  - by rewrite !(_update_raises env user cd read_only _ exc Hc).
  - destruct (_update_returns env user cd read_only w1 b Hc) as (-> & _).
    by destruct (_update_returns env user cd read_only w2 b Hc) as (-> & _).
Qed.

(** C8 (as amended): [update] recomputes the grade whatever the store holds
    (also a grade with a matching policy hash), and two [update] calls in a
    row over unchanged data give two equal results; they perform two store
    upserts when persistence is enabled for the course and the engagement
    gate is disabled or the grade is attempted, and none otherwise. *)
Theorem update_twice_gives_equal_grades
    (env : Collaborators) (user : User.t) (args : CourseArgs.t)
    (cd : CourseData.t) (w : World) :
  CourseData_init env (Some user) args = Return cd →
  let first := CourseGradeFactory.update env user args w in
  let second := CourseGradeFactory.update env user args (snd first) in
  fst first = fst second ∧
  count is_computation (trace (snd first))
    = S (count is_computation (trace w)) ∧
  count is_computation (trace (snd second))
    = S (S (count is_computation (trace w))) ∧
  ∀ b : Breakdown.t,
    compute env user cd = Return b →
    fst first = Return (CourseGrade.assign (CourseGrade.blank user cd) b) ∧
    count is_upsert (trace (snd second))
      = (count is_upsert (trace w) +
         if should_persist_grades env (CourseData.course_key cd) &&
            (negb (WRITE_ONLY_IF_ENGAGED env) || Breakdown.attempted b)
         then 2 else 0)%nat.
Proof.
  intros Hcd first second. subst second first.
  rewrite !(update_unfold env user args cd _ Hcd).
  split; [apply _update_result_ignores_world|].
  split; [apply _update_computes_once|].
  split; [by rewrite !_update_computes_once|].
  intros b Hc.
  split; [by destruct (_update_returns env user cd false w b Hc)|].
  rewrite !(_update_upserts env user cd false _ b Hc).
  unfold writes. simpl.
  destruct (should_persist_grades env _ && _); lia.
Qed.

Lemma update_twice_gives_equal_grades_witness :
  let env := Sample.env false true false in
  let w := Sample.world_with (Sample.row Sample.alice "hash-2") in
  let first := CourseGradeFactory.update env Sample.alice Sample.args w in
  let second :=
    CourseGradeFactory.update env Sample.alice Sample.args (snd first) in
  fst first = fst second ∧
  count is_computation (trace (snd second)) = 2%nat ∧
  count is_upsert (trace (snd second)) = 2%nat.
Proof.
  destruct (update_twice_gives_equal_grades
              (Sample.env false true false) Sample.alice Sample.args
              (Sample.context (Some Sample.alice))
              (Sample.world_with (Sample.row Sample.alice "hash-2"))
              eq_refl) as (Hequal & _ & Htwice & Hupserts).
  split; [exact Hequal|]. split; [exact Htwice|].
  exact (proj2 (Hupserts
                  {| Breakdown.percent := 4 # 5;
                     Breakdown.letter_grade := Some "Pass";
                     Breakdown.passed := Some true;
                     Breakdown.attempted := true |} eq_refl)).
Defined.

(** C8 (as stated) fails in its count of upserts: with persistence disabled
    for the course, two [update] calls in a row give equal grades and
    recompute twice, and write nothing. *)
Lemma update_twice_without_persistence_upserts_nothing :
  let env := Sample.env false false false in
  let w := Sample.world_with (Sample.row Sample.alice "hash-2") in
  let first := CourseGradeFactory.update env Sample.alice Sample.args w in
  let second :=
    CourseGradeFactory.update env Sample.alice Sample.args (snd first) in
  CourseData_init env (Some Sample.alice) Sample.args
    = Return (Sample.context (Some Sample.alice)) ∧
  fst first = fst second ∧
  count is_computation (trace (snd second)) = 2%nat ∧
  count is_upsert (trace (snd second)) = 0%nat ∧
  grades (snd second) = grades w.
Proof. vm_compute. repeat split; reflexivity. Qed.

(** ** The trace is write-only

    No method reads the trace: a run from a world is the run from the same
    table and clock with an empty trace, with its events appended. *)

Lemma replay_reset w fresh : reset (replay w fresh) = reset fresh.
Proof. reflexivity. Qed.

Lemma replay_replay w a b :
  replay (replay w a) b = replay w (replay a b).
Proof. unfold replay; simpl. by rewrite app_assoc. Qed.

Lemma replay_self w : replay w (reset w) = w.
Proof. destruct w; unfold replay, reset; simpl. by rewrite app_nil_r. Qed.

Section WriteOnly.
Context {A B : Type}.

Lemma write_only_ret (a : A) : write_only (ret a).
Proof. intros w. unfold ret; simpl. by rewrite replay_self. Qed.

Lemma write_only_raise (e : Exception) : write_only (@raise A e).
Proof. intros w. unfold raise; simpl. by rewrite replay_self. Qed.

Lemma write_only_lift (r : Result A) : write_only (lift r).
Proof. intros w. unfold lift; simpl. by rewrite replay_self. Qed.

Lemma write_only_bind (m : M A) (k : A → M B) :
  write_only m → (∀ a, write_only (k a)) → write_only (bind m k).
Proof.
  intros Hm Hk w. unfold bind. rewrite (Hm w).
  destruct (m (reset w)) as [[exc|a] w1]; simpl.
  - reflexivity.
  - rewrite (Hk a (replay w w1)), replay_reset, (Hk a w1). simpl.
    by rewrite replay_replay.
Qed.

Lemma write_only_try_except (body : M A) handles (handler : Exception → M A) :
  write_only body → (∀ e, write_only (handler e)) →
  write_only (try_except body handles handler).
Proof.
  intros Hm Hk w. unfold try_except. rewrite (Hm w).
  destruct (body (reset w)) as [[exc|a] w1]; simpl; [|reflexivity].
  destruct (handles exc); [|reflexivity].
  rewrite (Hk exc (replay w w1)), replay_reset, (Hk exc w1). simpl.
  by rewrite replay_replay.
Qed.
End WriteOnly.

Lemma write_only_emit (e : Event) : write_only (emit e).
Proof. intros w. reflexivity. Qed.

Lemma write_only_PersistentCourseGrade_read uid ck :
  write_only (PersistentCourseGrade_read uid ck).
Proof.
  intros w. unfold PersistentCourseGrade_read. simpl. by rewrite replay_self.
Qed.

Lemma write_only_PersistentCourseGrade_update_or_create
    uid ck ver edited hash pct letter pass :
  write_only (PersistentCourseGrade_update_or_create
                uid ck ver edited hash pct letter pass).
Proof. intros w. reflexivity. Qed.

Create HintDb write_only.
#[export] Hint Resolve write_only_ret write_only_raise write_only_lift
  write_only_emit write_only_PersistentCourseGrade_read
  write_only_PersistentCourseGrade_update_or_create : write_only.

Ltac write_only :=
  repeat first
    [ solve [auto with write_only]
    | apply write_only_bind; [|intros]
    | apply write_only_try_except; [|intros]
    | match goal with
      | |- write_only (if ?c then _ else _) => destruct c
      | |- write_only (match ?x with _ => _ end) => destruct x
      end ].

Lemma write_only__read env user cd :
  write_only (CourseGradeFactory._read env user cd).
Proof. unfold CourseGradeFactory._read. write_only. Qed.

Lemma write_only__create_zero user cd :
  write_only (CourseGradeFactory._create_zero user cd).
Proof. unfold CourseGradeFactory._create_zero. write_only. Qed.

Lemma write_only__update env user cd read_only :
  write_only (CourseGradeFactory._update env user cd read_only).
Proof.
  unfold CourseGradeFactory._update, CourseGradeFactory.CourseGrade_update.
  write_only.
Qed.

#[export] Hint Resolve write_only__read write_only__create_zero
  write_only__update : write_only.

Lemma write_only_create env user args :
  write_only (CourseGradeFactory.create env user args).
Proof. unfold CourseGradeFactory.create. write_only. Qed.

Lemma write_only_update env user args :
  write_only (CourseGradeFactory.update env user args).
Proof. unfold CourseGradeFactory.update. write_only. Qed.

#[export] Hint Resolve write_only_create write_only_update : write_only.

Lemma write_only__iter_grade_result env user cd force_update :
  write_only (CourseGradeFactory._iter_grade_result env user cd force_update).
Proof.
  unfold CourseGradeFactory._iter_grade_result.
  destruct force_update; cbv zeta; write_only.
Qed.

Lemma write_only_frame {A} (m : M A) (w1 w2 : World) :
  write_only m → reset w1 = reset w2 →
  fst (m w1) = fst (m w2) ∧ reset (snd (m w1)) = reset (snd (m w2)).
Proof.
  intros Hm Hreset. rewrite (Hm w1), (Hm w2), Hreset. simpl.
  by rewrite !replay_reset.
Qed.

Lemma reset_record w events : reset (record w events) = reset w.
Proof. reflexivity. Qed.

(** ** Only the end of [iter] clears the cache *)

Lemma cache_clears_record w events :
  cache_clears (record w events)
    = (cache_clears w + count is_cache_clear events)%nat.
Proof. unfold cache_clears. simpl. apply count_app. Qed.

Lemma keeps_cache_ret {A} (a : A) : keeps_cache (ret a).
Proof. by intros w. Qed.

Lemma keeps_cache_raise {A} (e : Exception) : keeps_cache (@raise A e).
Proof. by intros w. Qed.

Lemma keeps_cache_lift {A} (r : Result A) : keeps_cache (lift r).
Proof. by intros w. Qed.

Lemma keeps_cache_emit (e : Event) :
  is_cache_clear e = false → keeps_cache (emit e).
Proof.
  intros He w. unfold emit. simpl. rewrite cache_clears_record.
  unfold count. simpl. rewrite He. simpl. lia.
Qed.

Lemma keeps_cache_bind {A B} (m : M A) (k : A → M B) :
  keeps_cache m → (∀ a, keeps_cache (k a)) → keeps_cache (bind m k).
Proof.
  intros Hm Hk w. unfold bind. specialize (Hm w).
  destruct (m w) as [[exc|a] w1]; simpl in *; [done|].
  by rewrite Hk.
Qed.

Lemma keeps_cache_try_except {A} (body : M A) handles
    (handler : Exception → M A) :
  keeps_cache body → (∀ e, keeps_cache (handler e)) →
  keeps_cache (try_except body handles handler).
Proof.
  intros Hm Hk w. unfold try_except. specialize (Hm w).
  destruct (body w) as [[exc|a] w1]; simpl in *; [|done].
  destruct (handles exc); simpl; [by rewrite Hk | done].
Qed.

Lemma keeps_cache_PersistentCourseGrade_read uid ck :
  keeps_cache (PersistentCourseGrade_read uid ck).
Proof. by intros w. Qed.

Lemma keeps_cache_PersistentCourseGrade_update_or_create
    uid ck ver edited hash pct letter pass :
  keeps_cache (PersistentCourseGrade_update_or_create
                 uid ck ver edited hash pct letter pass).
Proof.
  intros w. unfold PersistentCourseGrade_update_or_create, cache_clears.
  simpl. rewrite count_app. unfold count at 2. simpl. lia.
Qed.

Create HintDb keeps_cache.
#[export] Hint Resolve keeps_cache_ret keeps_cache_raise keeps_cache_lift
  keeps_cache_PersistentCourseGrade_read
  keeps_cache_PersistentCourseGrade_update_or_create : keeps_cache.

Ltac keeps_cache :=
  repeat first
    [ solve [auto with keeps_cache]
    | apply keeps_cache_emit; reflexivity
    | apply keeps_cache_bind; [|intros]
    | apply keeps_cache_try_except; [|intros]
    | match goal with
      | |- keeps_cache (if ?c then _ else _) => destruct c
      | |- keeps_cache (match ?x with _ => _ end) => destruct x
      end ].

Lemma keeps_cache__read env user cd :
  keeps_cache (CourseGradeFactory._read env user cd).
Proof. unfold CourseGradeFactory._read. keeps_cache. Qed.

Lemma keeps_cache__create_zero user cd :
  keeps_cache (CourseGradeFactory._create_zero user cd).
Proof. unfold CourseGradeFactory._create_zero. keeps_cache. Qed.

Lemma keeps_cache__update env user cd read_only :
  keeps_cache (CourseGradeFactory._update env user cd read_only).
Proof.
  unfold CourseGradeFactory._update, CourseGradeFactory.CourseGrade_update.
  keeps_cache.
Qed.

#[export] Hint Resolve keeps_cache__read keeps_cache__create_zero
  keeps_cache__update : keeps_cache.

Lemma keeps_cache_create env user args :
  keeps_cache (CourseGradeFactory.create env user args).
Proof. unfold CourseGradeFactory.create. keeps_cache. Qed.

Lemma keeps_cache_update env user args :
  keeps_cache (CourseGradeFactory.update env user args).
Proof. unfold CourseGradeFactory.update. keeps_cache. Qed.

#[export] Hint Resolve keeps_cache_create keeps_cache_update : keeps_cache.

Lemma keeps_cache__iter_grade_result env user cd force_update :
  keeps_cache (CourseGradeFactory._iter_grade_result env user cd force_update).
Proof.
  unfold CourseGradeFactory._iter_grade_result.
  destruct force_update; cbv zeta; keeps_cache.
Qed.

(** ** One learner of the batch *)

Lemma write_only_graded env force_update user cd :
  write_only (graded env force_update user cd).
Proof. unfold graded. destruct force_update; auto with write_only. Qed.

Lemma keeps_cache_graded env force_update user cd :
  keeps_cache (graded env force_update user cd).
Proof. unfold graded. destruct force_update; auto with keeps_cache. Qed.

Lemma _iter_grade_result_eq env user cd force_update w :
  CourseGradeFactory._iter_grade_result env user cd force_update w =
    match graded env force_update user cd w with
    | (Return g, w') =>
        (Return {| CourseGradeFactory.student := user;
                   CourseGradeFactory.course_grade := Some g;
                   CourseGradeFactory.error := None |}, w')
    | (Raise exc, w') =>
        (Return {| CourseGradeFactory.student := user;
                   CourseGradeFactory.course_grade := None;
                   CourseGradeFactory.error := Some exc |},
         record w' [LogException (User.id user) (CourseData.course_key cd)
                      exc])
    end.
Proof.
  unfold CourseGradeFactory._iter_grade_result, graded, try_except, bind.
  destruct force_update; cbv zeta;
    match goal with
    | |- context [?m env user ?a w] => destruct (m env user a w) as [[?|?] ?]
    end; reflexivity.
Qed.

(** [_iter_grade_result] always returns: it raises nothing. *)
Lemma _iter_grade_result_returns env user cd force_update w :
  ∃ result,
    fst (CourseGradeFactory._iter_grade_result env user cd force_update w)
      = Return result.
Proof.
  rewrite _iter_grade_result_eq.
  destruct (graded env force_update user cd w) as [[exc|g] w']; eauto.
Qed.

(** ** The generator, step by step *)

Lemma live_iter env cd force_update users args :
  CourseData_init env None (iter_args args) = Return cd →
  live env cd force_update users
    (CourseGradeFactory.iter users args force_update).
Proof. intros H. right. by exists args. Qed.

Lemma loop_cons env cd tags user rest force_update w :
  ∃ w',
    CourseGradeFactory.loop env cd tags (user :: rest) force_update w
      = (CourseGradeFactory.Yielded
           (result_of user (fst (graded env force_update user cd w))),
         CourseGradeFactory.Suspended cd tags rest force_update, w') ∧
    reset w' = reset (snd (graded env force_update user cd w)) ∧
    cache_clears w' = cache_clears w.
Proof.
  unfold CourseGradeFactory.loop, CourseGradeFactory.timer_enter, emit. simpl.
  rewrite _iter_grade_result_eq.
  set (w1 := record w [TimerEntered tags]).
  destruct (write_only_frame (graded env force_update user cd) w1 w
              (write_only_graded _ _ _ _) eq_refl) as [Hr Hs].
  pose proof (keeps_cache_graded env force_update user cd w1) as Hc.
  assert (cache_clears w1 = cache_clears w) as Hw1.
  { unfold w1. rewrite cache_clears_record. unfold count. simpl. lia. }
  rewrite <- Hr, <- Hs.
  destruct (graded env force_update user cd w1) as [[exc|g] w2]; simpl in *.
  - eexists. split; [reflexivity|]. split; [reflexivity|].
    rewrite cache_clears_record. unfold count at 1. simpl. lia.
  - eexists. split; [reflexivity|]. split; [reflexivity|]. lia.
Qed.

Lemma next_Suspended env cd tags users force_update w :
  CourseGradeFactory.next env
    (CourseGradeFactory.Suspended cd tags users force_update) w
  = CourseGradeFactory.loop env cd tags users force_update
      (record w [TimerExited tags]).
Proof. reflexivity. Qed.

Lemma next_Created env cd users args force_update w :
  CourseData_init env None (iter_args args) = Return cd →
  CourseGradeFactory.next env
    (CourseGradeFactory.Created users args force_update) w
  = CourseGradeFactory.loop env cd (stats_tags cd) users force_update w.
Proof.
  intros Hcd. unfold CourseGradeFactory.next.
  unfold iter_args in Hcd. by rewrite Hcd.
Qed.

Lemma next_live_cons env cd force_update user rest g w :
  live env cd force_update (user :: rest) g →
  ∃ tags w',
    CourseGradeFactory.next env g w
      = (CourseGradeFactory.Yielded
           (result_of user (fst (graded env force_update user cd w))),
         CourseGradeFactory.Suspended cd tags rest force_update, w') ∧
    reset w' = reset (snd (graded env force_update user cd w)) ∧
    cache_clears w' = cache_clears w.
Proof.
  intros [[tags ->] | (args & -> & Hcd)].
  - rewrite next_Suspended.
    destruct (loop_cons env cd tags user rest force_update
                (record w [TimerExited tags])) as (w' & Hl & Hs & Hc).
    destruct (write_only_frame (graded env force_update user cd)
                (record w [TimerExited tags]) w
                (write_only_graded _ _ _ _) eq_refl) as [Hr Hw].
    exists tags, w'. split; [|split].
    + by rewrite Hl, Hr.
    + by rewrite Hs, Hw.
    + rewrite Hc, cache_clears_record. unfold count. simpl. lia.
  - rewrite (next_Created env cd _ _ _ _ Hcd).
    destruct (loop_cons env cd (stats_tags cd) user rest force_update w)
      as (w' & Hl & Hs & Hc).
    eauto.
Qed.

Lemma next_live_nil env cd force_update g w :
  live env cd force_update [] g →
  ∃ events,
    CourseGradeFactory.next env g w
      = (CourseGradeFactory.StopIteration, CourseGradeFactory.Finished,
         record w (events ++ [CacheCleared (CourseData.course_key cd)])) ∧
    count is_cache_clear events = 0%nat.
Proof.
  intros [[tags ->] | (args & -> & Hcd)].
  - rewrite next_Suspended. exists [TimerExited tags].
    split; [|reflexivity].
    unfold CourseGradeFactory.loop, CourseGradeFactory._course_transaction_exit,
      VisibleBlocks_clear_cache, emit.
    simpl. by rewrite record_record.
  - rewrite (next_Created env cd _ _ _ _ Hcd).
    exists []. split; reflexivity.
Qed.

Lemma take_Finished env n w :
  CourseGradeFactory.take env n CourseGradeFactory.Finished w
    = ([], CourseGradeFactory.Finished, w).
Proof. by destruct n. Qed.

Lemma next_ends env g w :
  match CourseGradeFactory.next env g w with
  | (CourseGradeFactory.Yielded _, _, _) => True
  | (_, g', _) => g' = CourseGradeFactory.Finished
  end.
Proof.
  assert (∀ cd tags users force_update w0,
            match CourseGradeFactory.loop env cd tags users force_update w0 with
            | (CourseGradeFactory.Yielded _, _, _) => True
            | (_, g', _) => g' = CourseGradeFactory.Finished
            end) as Hloop.
  { intros cd tags [|user rest] force_update w0; simpl; [done|].
    by destruct (CourseGradeFactory._iter_grade_result _ _ _ _ _)
      as [[?|?] ?]. }
  destruct g as [users args force_update|cd tags users force_update|]; simpl.
  - destruct (CourseData_init env None _); [done | apply Hloop].
  - apply Hloop.
  - done.
Qed.

Lemma take_add env n m g w :
  CourseGradeFactory.take env (n + m) g w =
    let '(r1, g1, w1) := CourseGradeFactory.take env n g w in
    let '(r2, g2, w2) := CourseGradeFactory.take env m g1 w1 in
    (r1 ++ r2, g2, w2).
Proof.
  revert g w. induction n as [|n IH]; intros g w; simpl.
  - by destruct (CourseGradeFactory.take env m g w) as [[? ?] ?].
  - pose proof (next_ends env g w) as Hend.
    destruct (CourseGradeFactory.next env g w) as [[[r| |exc] g'] w'].
    + rewrite IH.
      destruct (CourseGradeFactory.take env n g' w') as [[r1 g1] w1].
      by destruct (CourseGradeFactory.take env m g1 w1) as [[r2 g2] w2].
    + subst g'. by rewrite take_Finished.
    + subst g'. by rewrite take_Finished.
Qed.

(** Taking [k] elements of a live generator with at least [k] learners to
    go: [k] results, for the first [k] learners in order, no cache clear so
    far, and a generator live for the remaining learners. *)
Lemma take_live env cd force_update k :
  ∀ users g w,
    live env cd force_update users g → (k ≤ length users)%nat →
    ∃ results g' w',
      CourseGradeFactory.take env k g w = (results, g', w') ∧
      length results = k ∧
      map CourseGradeFactory.student results = take k users ∧
      live env cd force_update (drop k users) g' ∧
      cache_clears w' = cache_clears w.
Proof.
  induction k as [|k IH]; intros users g w Hlive Hk.
  - exists [], g, w. simpl. rewrite drop_0. by rewrite take_0.
  - destruct users as [|user rest]; [simpl in Hk; lia|].
    destruct (next_live_cons env cd force_update user rest g w Hlive)
      as (tags & w1 & Hnext & _ & Hc1).
    destruct (IH rest (CourseGradeFactory.Suspended cd tags rest force_update)
                w1) as (results & g' & w' & Htake & Hlen & Hmap & Hl & Hc).
    { left. by exists tags. }
    { simpl in Hk. lia. }
    eexists _, g', w'. simpl. rewrite Hnext, Htake.
    split; [reflexivity|]. simpl. rewrite Hlen, Hmap.
    repeat split; try done.
    + by destruct (graded env force_update user cd w) as [[?|?] ?].
    + lia.
Qed.

(** Consuming a live generator to the end. *)
Lemma consume_live env cd force_update users g w :
  live env cd force_update users g →
  ∃ results g' w' events,
    CourseGradeFactory.take env (length users) g w = (results, g', w') ∧
    CourseGradeFactory.take env (S (length users)) g w
      = (results, CourseGradeFactory.Finished,
         record w' (events ++ [CacheCleared (CourseData.course_key cd)])) ∧
    length results = length users ∧
    map CourseGradeFactory.student results = users ∧
    cache_clears w' = cache_clears w ∧
    count is_cache_clear events = 0%nat.
Proof.
  intros Hlive.
  destruct (take_live env cd force_update (length users) users g w Hlive)
    as (results & g' & w' & Htake & Hlen & Hmap & Hl & Hc); [lia|].
  rewrite drop_all in Hl. rewrite firstn_all in Hmap.
  destruct (next_live_nil env cd force_update g' w' Hl) as (events & Hn & He).
  exists results, g', w', events.
  replace (S (length users)) with (length users + 1)%nat by lia.
  rewrite take_add, Htake. simpl. rewrite Hn, app_nil_r. done.
Qed.

(** The element a live generator yields at position [k]. *)
Lemma take_live_lookup env cd force_update users g w k user n :
  live env cd force_update users g →
  users !! k = Some user → (k < n)%nat →
  (CourseGradeFactory.take env n g w).1.1 !! k
    = Some (result_of user
              (fst (graded env force_update user cd
                      (CourseGradeFactory.take env k g w).2))).
Proof.
  intros Hlive Hk Hn.
  pose proof (lookup_lt_Some _ _ _ Hk) as Hlt.
  destruct (take_live env cd force_update k users g w Hlive)
    as (r1 & g1 & w1 & Htake & Hlen & _ & Hl & _); [lia|].
  rewrite (drop_S _ _ _ Hk) in Hl.
  destruct (next_live_cons env cd force_update user _ g1 w1 Hl)
    as (tags & w2 & Hnext & _).
  replace n with (k + S (n - S k))%nat by lia.
  rewrite take_add, Htake. simpl. rewrite Hnext.
  destruct (CourseGradeFactory.take env (n - S k) _ w2) as [[r3 g3] w3].
  simpl. rewrite lookup_app_r by lia.
  by replace (k - length r1)%nat with 0%nat by lia.
Qed.

(** ** Batch results *)

Lemma _iter_grade_result_well_formed env user cd force_update w :
  ∃ result,
    fst (CourseGradeFactory._iter_grade_result env user cd force_update w)
      = Return result ∧
    well_formed result.
Proof.
  rewrite _iter_grade_result_eq.
  destruct (graded env force_update user cd w) as [[exc|g] w']; simpl;
    eexists; (split; [reflexivity|]); [right | left]; simpl; eauto.
Qed.

Lemma next_well_formed env g w result g' w' :
  CourseGradeFactory.next env g w
    = (CourseGradeFactory.Yielded result, g', w') →
  well_formed result.
Proof.
  assert (∀ cd tags users force_update w0,
            CourseGradeFactory.loop env cd tags users force_update w0
              = (CourseGradeFactory.Yielded result, g', w') →
            well_formed result) as Hloop.
  { intros cd tags [|user rest] force_update w0; simpl; [discriminate|].
    destruct (_iter_grade_result_well_formed env user cd force_update
                (record w0 [TimerEntered tags])) as (r & Hr & Hwf).
    unfold CourseGradeFactory.timer_enter, emit. simpl.
    destruct (CourseGradeFactory._iter_grade_result _ _ _ _ _)
      as [[exc|r0] w2]; simpl in Hr; [discriminate|].
    intros [= <- _ _]. congruence. }
  destruct g as [users args force_update|cd tags users force_update|]; simpl.
  - destruct (CourseData_init env None _); [discriminate | apply Hloop].
  - apply Hloop.
  - discriminate.
Qed.

(** C9: every result yielded by [iter] has exactly one of its grade and its
    error set: a success carries a grade and no error, a failure carries an
    error and no grade.  This holds of what [_iter_grade_result] returns
    (it always returns) and of every element any consumer takes from the
    generator, in any state. *)
Theorem iter_results_have_a_grade_or_an_error (env : Collaborators) :
  (∀ user cd force_update w,
     ∃ result,
       fst (CourseGradeFactory._iter_grade_result env user cd force_update w)
         = Return result ∧
       ((is_Some (CourseGradeFactory.course_grade result) ∧
         CourseGradeFactory.error result = None) ∨
        (CourseGradeFactory.course_grade result = None ∧
         is_Some (CourseGradeFactory.error result)))) ∧
  (∀ n g w,
     Forall
       (λ result,
          (is_Some (CourseGradeFactory.course_grade result) ∧
           CourseGradeFactory.error result = None) ∨
          (CourseGradeFactory.course_grade result = None ∧
           is_Some (CourseGradeFactory.error result)))
       (CourseGradeFactory.take env n g w).1.1).
Proof.
  split; [apply _iter_grade_result_well_formed|].
  induction n as [|n IH]; intros g w; simpl; [constructor|].
  destruct (CourseGradeFactory.next env g w) as [[[r| |exc] g'] w'] eqn:Hnext;
    simpl; try constructor.
  specialize (IH g' w').
  destruct (CourseGradeFactory.take env n g' w') as [[rs g''] w''].
  simpl in *. constructor; [|exact IH].
  exact (next_well_formed env g w r g' w' Hnext).
Qed.

(** ** The cache invalidation at the end of [iter] *)

Lemma last_record w events e :
  last (trace (record w (events ++ [e]))) = Some e.
Proof. simpl. by rewrite app_assoc, last_snoc. Qed.

(** X18: when the lazy sequence produced by [iter] (for a course context that
    resolves) is consumed to its end, the cache of the course is cleared
    exactly once, after the last element: no clear has happened when all the
    elements have been yielded, and the clear is the last effect of the
    consumption. *)
Theorem full_consumption_clears_cache_once
    (env : Collaborators) (users : list User.t) (args : CourseArgs.t)
    (force_update : bool) (w : World) (cd : CourseData.t) :
  CourseData_init env None (iter_args args) = Return cd →
  let g := CourseGradeFactory.iter users args force_update in
  let yielded_all := (CourseGradeFactory.take env (length users) g w).2 in
  let after := (CourseGradeFactory.consume env g w).2 in
  (CourseGradeFactory.consume env g w).1.2 = CourseGradeFactory.Finished ∧
  length (CourseGradeFactory.consume env g w).1.1 = length users ∧
  length (CourseGradeFactory.take env (length users) g w).1.1
    = length users ∧
  count is_cache_clear (trace yielded_all) = count is_cache_clear (trace w) ∧
  count is_cache_clear (trace after) = S (count is_cache_clear (trace w)) ∧
  last (trace after) = Some (CacheCleared (CourseData.course_key cd)).
Proof.
  intros Hcd g yielded_all after. subst yielded_all after g.
  destruct (consume_live env cd force_update users
              (CourseGradeFactory.iter users args force_update) w
              (live_iter env cd force_update users args Hcd))
    as (results & g' & w' & events & Htake & Hall & Hlen & _ & Hc & He).
  unfold CourseGradeFactory.consume.
  change (CourseGradeFactory.pending
            (CourseGradeFactory.iter users args force_update)) with users.
  rewrite Hall, Htake. simpl fst. simpl snd.
  fold (cache_clears w') (cache_clears w)
    (cache_clears
       (record w' (events ++ [CacheCleared (CourseData.course_key cd)]))).
  rewrite cache_clears_record, count_app, He, Hc.
  repeat split; try done.
  - unfold count. simpl. lia.
  - apply last_record.
Qed.

Lemma full_consumption_clears_cache_once_witness :
  let env := Sample.env false true false in
  let g := CourseGradeFactory.iter [Sample.alice; Sample.bob] Sample.args
             false in
  (CourseGradeFactory.consume env g Sample.empty_world).1.2
    = CourseGradeFactory.Finished ∧
  length (CourseGradeFactory.consume env g Sample.empty_world).1.1 = 2%nat ∧
  count is_cache_clear
    (trace (CourseGradeFactory.take env 2 g Sample.empty_world).2) = 0%nat ∧
  count is_cache_clear
    (trace (CourseGradeFactory.consume env g Sample.empty_world).2) = 1%nat ∧
  last (trace (CourseGradeFactory.consume env g Sample.empty_world).2)
    = Some (CacheCleared "course-v1:edX+DemoX+T1").
Proof.
  destruct (full_consumption_clears_cache_once
              (Sample.env false true false) [Sample.alice; Sample.bob]
              Sample.args false Sample.empty_world (Sample.context None)
              eq_refl) as (Hdone & Hlen & _ & Hbefore & Hafter & Hlast).
  split; [exact Hdone|]. split; [exact Hlen|]. split; [exact Hbefore|].
  split; [exact Hafter | exact Hlast].
Defined.

(** C4: the invalidation is not guaranteed.  [_course_transaction] is a
    context manager around the loop of [iter], but its body has no
    [try]/[finally]: a consumer takes the first of two results and stops,
    the generator is closed ([GeneratorExit] at its [yield]) and the cache
    is never cleared, where the claim has it cleared exactly once.  The
    same holds when an exception is thrown into the generator. *)
Lemma early_stop_skips_the_cache_clear :
  let env := Sample.env false true false in
  let g := CourseGradeFactory.iter [Sample.alice; Sample.bob] Sample.args
             false in
  CourseData_init env None (iter_args Sample.args)
    = Return (Sample.context None) ∧
  length (CourseGradeFactory.take_then_close env 1 g Sample.empty_world).1.1
    = 1%nat ∧
  (CourseGradeFactory.take_then_close env 1 g Sample.empty_world).1.2
    = CourseGradeFactory.Finished ∧
  count is_cache_clear
    (trace (CourseGradeFactory.take_then_close env 1 g Sample.empty_world).2)
    = 0%nat ∧
  count is_cache_clear
    (trace (CourseGradeFactory.take_then_throw env 1
              (CalculatorError "consumer failed") g Sample.empty_world).2)
    = 0%nat.
Proof. vm_compute. repeat split; reflexivity. Qed.

(** ** A failing learner does not disturb the others *)

Section Elsewhere.
Context (learner : Z).

Lemma same_elsewhere_refl w : same_elsewhere learner w w.
Proof. by split. Qed.

Lemma same_elsewhere_sym w1 w2 :
  same_elsewhere learner w1 w2 → same_elsewhere learner w2 w1.
Proof. intros [Hn Hg]. split; [done|]. intros uid ck Hne. by rewrite Hg. Qed.

Lemma same_elsewhere_trans w1 w2 w3 :
  same_elsewhere learner w1 w2 → same_elsewhere learner w2 w3 →
  same_elsewhere learner w1 w3.
Proof.
  intros [Hn Hg] [Hn' Hg']. split; [congruence|].
  intros uid ck Hne. by rewrite Hg, Hg'.
Qed.

Lemma same_elsewhere_reset w1 w2 w1' w2' :
  reset w1 = reset w1' → reset w2 = reset w2' →
  same_elsewhere learner w1 w2 → same_elsewhere learner w1' w2'.
Proof.
  unfold reset. intros [= Hg1 Hn1] [= Hg2 Hn2] [Hn Hg].
  split; [congruence|]. intros uid ck Hne. rewrite <- Hg1, <- Hg2. by apply Hg.
Qed.

Lemma same_elsewhere_record w1 w2 e1 e2 :
  same_elsewhere learner w1 w2 →
  same_elsewhere learner (record w1 e1) (record w2 e2).
Proof. by apply same_elsewhere_reset. Qed.

Context {A B : Type}.

Lemma agree_ret (a : A) : agree learner (ret a) (ret a).
Proof. by intros w1 w2 H. Qed.

Lemma agree_raise (e : Exception) : agree learner (@raise A e) (raise e).
Proof. by intros w1 w2 H. Qed.

Lemma agree_lift (r : Result A) : agree learner (lift r) (lift r).
Proof. by intros w1 w2 H. Qed.

Lemma agree_bind (m1 m2 : M A) (k1 k2 : A → M B) :
  agree learner m1 m2 → (∀ a, agree learner (k1 a) (k2 a)) →
  agree learner (bind m1 k1) (bind m2 k2).
Proof.
  intros Hm Hk w1 w2 Hw. unfold bind.
  destruct (Hm w1 w2 Hw) as [Hr Hs].
  destruct (m1 w1) as [[e1|a1] w1'], (m2 w2) as [[e2|a2] w2'];
    simpl in *; try discriminate.
  - injection Hr as ->. by split.
  - injection Hr as ->. by apply Hk.
Qed.

Lemma agree_try_except (b1 b2 : M A) handles (h1 h2 : Exception → M A) :
  agree learner b1 b2 → (∀ e, agree learner (h1 e) (h2 e)) →
  agree learner (try_except b1 handles h1) (try_except b2 handles h2).
Proof.
  intros Hm Hk w1 w2 Hw. unfold try_except.
  destruct (Hm w1 w2 Hw) as [Hr Hs].
  destruct (b1 w1) as [[e1|a1] w1'], (b2 w2) as [[e2|a2] w2'];
    simpl in *; try discriminate.
  - injection Hr as ->. destruct (handles e2); [by apply Hk | by split].
  - injection Hr as ->. by split.
Qed.

Lemma confined_ret (a : A) : confined learner (ret a).
Proof. intros w. apply same_elsewhere_refl. Qed.

Lemma confined_raise (e : Exception) : confined learner (@raise A e).
Proof. intros w. apply same_elsewhere_refl. Qed.

Lemma confined_lift (r : Result A) : confined learner (lift r).
Proof. intros w. apply same_elsewhere_refl. Qed.

Lemma confined_bind (m : M A) (k : A → M B) :
  confined learner m → (∀ a, confined learner (k a)) →
  confined learner (bind m k).
Proof.
  intros Hm Hk w. unfold bind. specialize (Hm w).
  destruct (m w) as [[e|a] w']; simpl in *; [done|].
  eapply same_elsewhere_trans; [exact Hm | apply Hk].
Qed.

Lemma confined_try_except (body : M A) handles (handler : Exception → M A) :
  confined learner body → (∀ e, confined learner (handler e)) →
  confined learner (try_except body handles handler).
Proof.
  intros Hm Hk w. unfold try_except. specialize (Hm w).
  destruct (body w) as [[e|a] w']; simpl in *; [|done].
  destruct (handles e); [|done].
  eapply same_elsewhere_trans; [exact Hm | apply Hk].
Qed.
End Elsewhere.

Lemma agree_emit learner (e1 e2 : Event) : agree learner (emit e1) (emit e2).
Proof.
  intros w1 w2 H. split; [done|].
  by apply (same_elsewhere_record learner w1 w2 [e1] [e2]).
Qed.

Lemma confined_emit learner (e : Event) : confined learner (emit e).
Proof.
  intros w.
  eapply same_elsewhere_reset; [| |apply (same_elsewhere_refl learner w)];
    reflexivity.
Qed.

Lemma agree_PersistentCourseGrade_read learner uid ck :
  uid ≠ learner →
  agree learner (PersistentCourseGrade_read uid ck)
    (PersistentCourseGrade_read uid ck).
Proof.
  intros Hne w1 w2 [Hn Hg]. unfold PersistentCourseGrade_read. simpl.
  split; [|by split]. unfold PersistentCourseGrade.read. by rewrite Hg.
Qed.

Lemma confined_PersistentCourseGrade_read learner uid ck :
  confined learner (PersistentCourseGrade_read uid ck).
Proof. intros w. apply same_elsewhere_refl. Qed.

Lemma agree_PersistentCourseGrade_update_or_create
    learner uid ck ver edited hash pct letter pass :
  agree learner
    (PersistentCourseGrade_update_or_create uid ck ver edited hash pct letter
       pass)
    (PersistentCourseGrade_update_or_create uid ck ver edited hash pct letter
       pass).
Proof.
  intros w1 w2 [Hn Hg]. unfold PersistentCourseGrade_update_or_create. simpl.
  split; [done|]. split; [done|]. simpl. intros u k Hne.
  unfold PersistentCourseGrade.update_or_create. simpl. rewrite Hn.
  destruct (decide ((uid, ck) = (u, k))) as [->|Hk].
  - by rewrite !lookup_insert_eq.
  - rewrite !lookup_insert_ne by done. by apply Hg.
Qed.

Lemma confined_PersistentCourseGrade_update_or_create
    learner ck ver edited hash pct letter pass :
  confined learner
    (PersistentCourseGrade_update_or_create learner ck ver edited hash pct
       letter pass).
Proof.
  intros w. unfold PersistentCourseGrade_update_or_create. simpl.
  split; [done|]. simpl. intros u k Hne.
  unfold PersistentCourseGrade.update_or_create. simpl.
  rewrite lookup_insert_ne; [done|]. congruence.
Qed.

Create HintDb elsewhere.
#[export] Hint Resolve agree_ret agree_raise agree_lift agree_emit
  agree_PersistentCourseGrade_read
  agree_PersistentCourseGrade_update_or_create
  confined_ret confined_raise confined_lift confined_emit
  confined_PersistentCourseGrade_read
  confined_PersistentCourseGrade_update_or_create : elsewhere.

Ltac elsewhere :=
  cbv zeta;
  repeat first
    [ solve [auto with elsewhere]
    | apply agree_bind; [|intros]
    | apply agree_try_except; [|intros]
    | apply confined_bind; [|intros]
    | apply confined_try_except; [|intros]
    | match goal with
      | |- agree _ (if ?c then _ else _) _ => destruct c
      | |- agree _ (match ?x with _ => _ end) _ => destruct x
      | |- confined _ (if ?c then _ else _) => destruct c
      | |- confined _ (match ?x with _ => _ end) => destruct x
      end ].

Section OtherLearners.
(** Two sets of collaborators that differ at most in what the calculator
    does for [learner]. *)
Context (env env' : Collaborators) (learner : Z).
Hypothesis same_init : CourseData_init env' = CourseData_init env.
Hypothesis same_zero : assume_zero_if_absent env' = assume_zero_if_absent env.
Hypothesis same_persist :
  should_persist_grades env' = should_persist_grades env.
Hypothesis same_gate : WRITE_ONLY_IF_ENGAGED env' = WRITE_ONLY_IF_ENGAGED env.
Hypothesis same_compute :
  ∀ u cd, User.id u ≠ learner → compute env' u cd = compute env u cd.

Lemma agree__read user cd :
  User.id user ≠ learner →
  agree learner (CourseGradeFactory._read env user cd)
    (CourseGradeFactory._read env' user cd).
Proof.
  intros Hne. unfold CourseGradeFactory._read. rewrite same_persist.
  elsewhere.
Qed.

Lemma agree__update user cd read_only :
  User.id user ≠ learner →
  agree learner (CourseGradeFactory._update env user cd read_only)
    (CourseGradeFactory._update env' user cd read_only).
Proof.
  intros Hne.
  unfold CourseGradeFactory._update, CourseGradeFactory.CourseGrade_update.
  rewrite same_persist, same_gate. simpl.
  rewrite (same_compute user cd Hne).
  elsewhere.
Qed.

Lemma agree_create user args :
  User.id user ≠ learner →
  agree learner (CourseGradeFactory.create env user args)
    (CourseGradeFactory.create env' user args).
Proof.
  intros Hne. unfold CourseGradeFactory.create. rewrite same_init, same_zero.
  pose proof (agree__read user) as Hread.
  pose proof (agree__update user) as Hupdate.
  elsewhere.
Qed.

Lemma agree_update user args :
  User.id user ≠ learner →
  agree learner (CourseGradeFactory.update env user args)
    (CourseGradeFactory.update env' user args).
Proof.
  intros Hne. unfold CourseGradeFactory.update. rewrite same_init.
  pose proof (agree__update user) as Hupdate.
  elsewhere.
Qed.

Lemma agree_graded force_update user cd :
  User.id user ≠ learner →
  agree learner (graded env force_update user cd)
    (graded env' force_update user cd).
Proof.
  intros Hne. unfold graded.
  destruct force_update; [by apply agree_update | by apply agree_create].
Qed.
End OtherLearners.

(** A learner's own run writes that learner's rows only. *)
Lemma confined__read env user cd :
  confined (User.id user) (CourseGradeFactory._read env user cd).
Proof. unfold CourseGradeFactory._read. elsewhere. Qed.

Lemma confined__update env user cd read_only :
  confined (User.id user) (CourseGradeFactory._update env user cd read_only).
Proof.
  unfold CourseGradeFactory._update, CourseGradeFactory.CourseGrade_update.
  elsewhere.
Qed.

Lemma confined_create env user args :
  confined (User.id user) (CourseGradeFactory.create env user args).
Proof.
  unfold CourseGradeFactory.create, CourseGradeFactory._create_zero.
  pose proof (confined__read env user) as Hread.
  pose proof (confined__update env user) as Hupdate.
  elsewhere.
Qed.

Lemma confined_update env user args :
  confined (User.id user) (CourseGradeFactory.update env user args).
Proof.
  unfold CourseGradeFactory.update.
  pose proof (confined__update env user) as Hupdate.
  elsewhere.
Qed.

Lemma confined_graded env force_update user cd :
  confined (User.id user) (graded env force_update user cd).
Proof.
  unfold graded.
  destruct force_update; [apply confined_update | apply confined_create].
Qed.

Lemma live_with_failure env learner exc cd force_update users g :
  live env cd force_update users g →
  live (with_failure env learner exc) cd force_update users g.
Proof. intros [H | H]; [by left | by right]. Qed.

(** Two runs of [iter], one with a calculator failure injected for
    [learner]: the results for every other learner are the same. *)
Lemma take_with_failure env learner exc cd force_update n :
  ∀ users g1 g2 w1 w2,
    live env cd force_update users g1 →
    live env cd force_update users g2 →
    same_elsewhere learner w1 w2 →
    ∀ k user,
      users !! k = Some user → User.id user ≠ learner →
      (CourseGradeFactory.take env n g1 w1).1.1 !! k
        = (CourseGradeFactory.take (with_failure env learner exc) n g2 w2).1.1
            !! k.
Proof.
  induction n as [|n IH]; intros users g1 g2 w1 w2 Hl1 Hl2 Hw k user Hk Hne;
    [done|].
  destruct users as [|first rest]; [done|].
  destruct (next_live_cons env cd force_update first rest g1 w1 Hl1)
    as (tags1 & w1' & Hn1 & Hs1 & _).
  destruct (next_live_cons (with_failure env learner exc) cd force_update
              first rest g2 w2 (live_with_failure _ _ _ _ _ _ _ Hl2))
    as (tags2 & w2' & Hn2 & Hs2 & _).
  simpl. rewrite Hn1, Hn2.
  assert (same_elsewhere learner w1' w2' ∧
          (User.id first ≠ learner →
           fst (graded env force_update first cd w1)
           = fst (graded (with_failure env learner exc) force_update first cd
                    w2))) as [Hw' Hr].
  { destruct (decide (User.id first = learner)) as [Heq|Hother].
    - split; [|done].
      eapply same_elsewhere_reset; [symmetry; exact Hs1
                                   |symmetry; exact Hs2|].
      subst learner.
      eapply same_elsewhere_trans;
        [apply same_elsewhere_sym, confined_graded|].
      eapply same_elsewhere_trans; [exact Hw | apply confined_graded].
    - destruct (agree_graded env (with_failure env learner exc) learner
                  eq_refl eq_refl eq_refl eq_refl) with
        (force_update := force_update) (user := first) (cd := cd)
        (w1 := w1) (w2 := w2) as [Hres Hst]; try done.
      { intros u c Hu. simpl. by destruct (Z.eqb_spec (User.id u) learner). }
      split; [|done].
      eapply same_elsewhere_reset; [symmetry; exact Hs1
                                   |symmetry; exact Hs2|exact Hst]. }
  specialize (IH rest
                (CourseGradeFactory.Suspended cd tags1 rest force_update)
                (CourseGradeFactory.Suspended cd tags2 rest force_update)
                w1' w2').
  destruct (CourseGradeFactory.take env n _ w1') as [[r1 g1'] w1''].
  destruct (CourseGradeFactory.take (with_failure env learner exc) n _ w2')
    as [[r2 g2'] w2''].
  simpl in *. destruct k as [|k]; simpl in *.
  - injection Hk as <-. by rewrite Hr.
  - apply IH with user; try done; left; eauto.
Qed.

Lemma graded_with_failure_raises env learner exc user cd w :
  User.id user = learner →
  ∃ e, fst (graded (with_failure env learner exc) true user cd w) = Raise e.
Proof.
  intros Hid. unfold graded, CourseGradeFactory.update, bind, lift. simpl.
  destruct (CourseData_init env (Some user) _) as [e|cd']; [by exists e|].
  exists exc. rewrite (_update_raises _ user cd' false w exc); [done|].
  simpl. by destruct (Z.eqb_spec (User.id user) learner).
Qed.

(** C5: over a finite sequence of N learners (and a course context that
    resolves), [iter] yields exactly N results, in the order of the input.
    The result at position k is what grading learner k gives in the world
    the first k results left behind: an error result when that raises, a
    valid result otherwise; an exception never ends the sequence.  With a
    calculator failure injected for one learner, the results at the
    positions of all other learners are unchanged, and under [force_update]
    the positions of that learner hold error results. *)
Theorem iter_yields_one_result_per_learner
    (env : Collaborators) (users : list User.t) (args : CourseArgs.t)
    (force_update : bool) (w : World) (cd : CourseData.t) :
  CourseData_init env None (iter_args args) = Return cd →
  let g := CourseGradeFactory.iter users args force_update in
  let results := (CourseGradeFactory.consume env g w).1.1 in
  length results = length users ∧
  map CourseGradeFactory.student results = users ∧
  (∀ k user,
     users !! k = Some user →
     let before := (CourseGradeFactory.take env k g w).2 in
     results !! k =
       Some match fst (graded env force_update user cd before) with
            | Raise exc =>
                {| CourseGradeFactory.student := user;
                   CourseGradeFactory.course_grade := None;
                   CourseGradeFactory.error := Some exc |}
            | Return grade =>
                {| CourseGradeFactory.student := user;
                   CourseGradeFactory.course_grade := Some grade;
                   CourseGradeFactory.error := None |}
            end) ∧
  (∀ learner exc k user,
     users !! k = Some user → User.id user ≠ learner →
     (CourseGradeFactory.consume (with_failure env learner exc) g w).1.1 !! k
       = results !! k) ∧
  (∀ learner exc k user,
     users !! k = Some user → User.id user = learner →
     force_update = true →
     ∃ e,
       (CourseGradeFactory.consume (with_failure env learner exc) g w).1.1
         !! k
       = Some {| CourseGradeFactory.student := user;
                 CourseGradeFactory.course_grade := None;
                 CourseGradeFactory.error := Some e |}).
Proof.
  intros Hcd g results. subst results g.
  pose proof (live_iter env cd force_update users args Hcd) as Hlive.
  unfold CourseGradeFactory.consume.
  change (CourseGradeFactory.pending
            (CourseGradeFactory.iter users args force_update)) with users.
  destruct (consume_live env cd force_update users _ w Hlive)
    as (results & g' & w' & events & _ & Hall & Hlen & Hmap & _).
  split; [by rewrite Hall|]. split; [by rewrite Hall|].
  split; [|split].
  - intros k user Hk. cbv zeta.
    rewrite (take_live_lookup env cd force_update users _ w k user _ Hlive Hk).
    + unfold result_of. by destruct (fst _).
    + apply lookup_lt_Some in Hk. lia.
  - intros learner exc k user Hk Hne. symmetry.
    exact (take_with_failure env learner exc cd force_update _ users _ _ w w
             Hlive Hlive (same_elsewhere_refl learner w) k user Hk Hne).
  - intros learner exc k user Hk Hid ->.
    rewrite (take_live_lookup (with_failure env learner exc) cd true users _
               w k user _ (live_with_failure _ _ _ _ _ _ _ Hlive) Hk).
    + destruct (graded_with_failure_raises env learner exc user cd
                  (CourseGradeFactory.take (with_failure env learner exc) k
                     (CourseGradeFactory.iter users args true) w).2 Hid)
        as [e ->].
      by exists e.
    + apply lookup_lt_Some in Hk. lia.
Qed.

Lemma iter_yields_one_result_per_learner_witness :
  let env := Sample.env false true false in
  let carol := {| User.id := 3 |} in
  let users := [Sample.alice; carol; Sample.bob] in
  let g := CourseGradeFactory.iter users Sample.args false in
  let results := (CourseGradeFactory.consume env g Sample.empty_world).1.1 in
  length results = 3%nat ∧
  map CourseGradeFactory.student results = users ∧
  results !! 1%nat =
    Some {| CourseGradeFactory.student := carol;
            CourseGradeFactory.course_grade := None;
            CourseGradeFactory.error :=
              Some (CalculatorError "no such learner") |} ∧
  (CourseGradeFactory.consume
     (with_failure env 1 (CalculatorError "injected")) g
     Sample.empty_world).1.1 !! 2%nat
  = results !! 2%nat.
Proof.
  destruct (iter_yields_one_result_per_learner
              (Sample.env false true false)
              [Sample.alice; {| User.id := 3 |}; Sample.bob]
              Sample.args false Sample.empty_world (Sample.context None)
              eq_refl) as (Hlen & Hmap & Heach & Hothers & _).
  split; [exact Hlen|]. split; [exact Hmap|]. split.
  - exact (Heach 1%nat {| User.id := 3 |} eq_refl).
  - refine (Hothers 1 (CalculatorError "injected") 2%nat Sample.bob eq_refl _).
    simpl. discriminate.
Defined.

(** ** [read]: the stored grade, never validated, never recomputed *)

(** What [read] leaves behind: the world it started from, with at most one
    log line. *)
Lemma read_world env user args w :
  snd (CourseGradeFactory.read env user args w) = w ∨
  ∃ what,
    snd (CourseGradeFactory.read env user args w)
      = record w [LogInfo what (User.id user)].
Proof.
  unfold CourseGradeFactory.read, bind, lift, try_except.
  destruct (CourseData_init env (Some user) args) as [exc|cd]; [by left|].
  destruct (should_persist_grades env (CourseData.course_key cd)) eqn:Hp.
  - destruct (grades w !! (User.id user, CourseData.course_key cd))
      as [row|] eqn:Hrow.
    + rewrite (_read_found env user cd w row Hp Hrow). right. by eexists.
    + rewrite (_read_absent env user cd w Hrow). simpl.
      destruct (assume_zero_if_absent env _); [right; by eexists | by left].
  - rewrite (_read_disabled env user cd w Hp). simpl.
    destruct (assume_zero_if_absent env _); [right; by eexists | by left].
Qed.

(** X1: [read] has no effect but logging: whatever the arguments and the world,
    it leaves the table and the clock as they are, never invokes the grade
    calculator, never upserts, never notifies and never clears the cache. *)
Theorem read_only_logs
    (env : Collaborators) (user : User.t) (args : CourseArgs.t) (w : World) :
  let after := snd (CourseGradeFactory.read env user args w) in
  grades after = grades w ∧
  now after = now w ∧
  count is_computation (trace after) = count is_computation (trace w) ∧
  count is_upsert (trace after) = count is_upsert (trace w) ∧
  notifications (trace after) = notifications (trace w) ∧
  count is_cache_clear (trace after) = count is_cache_clear (trace w).
Proof.
  intros after. subst after.
  destruct (read_world env user args w) as [-> | [what ->]]; [done|].
  simpl. rewrite !count_app, notifications_app. unfold count. simpl.
  rewrite app_nil_r. repeat split; lia.
Qed.

(** X2: [read] does not check the grading policy: with persistence enabled it
    returns the stored grade whatever policy hash the row was computed
    under. *)
Theorem read_returns_stored_grade_whatever_its_hash
    (env : Collaborators) (user : User.t) (args : CourseArgs.t)
    (cd : CourseData.t) (w : World) (row : PersistentCourseGrade.t) :
  CourseData_init env (Some user) args = Return cd →
  should_persist_grades env (CourseData.course_key cd) = true →
  grades w !! (User.id user, CourseData.course_key cd) = Some row →
  fst (CourseGradeFactory.read env user args w)
    = Return (Some (CourseGrade.new user cd
                      (PersistentCourseGrade.percent_grade row)
                      (Some (PersistentCourseGrade.letter_grade row))
                      (Some (CourseGradeFactory.is_not_None
                               (PersistentCourseGrade.passed_timestamp row))))).
Proof.
  intros Hcd Hp Hrow.
  unfold CourseGradeFactory.read, bind, lift, try_except.
  by rewrite Hcd, (_read_found env user cd w row Hp Hrow).
Qed.

Lemma read_returns_stored_grade_whatever_its_hash_witness :
  PersistentCourseGrade.grading_policy_hash (Sample.row Sample.alice "hash-1")
    ≠ CourseData.grading_policy_hash (Sample.context (Some Sample.alice)) ∧
  fst (CourseGradeFactory.read (Sample.env false true false) Sample.alice
         Sample.args (Sample.world_with (Sample.row Sample.alice "hash-1")))
    = Return (Some (CourseGrade.new Sample.alice
                      (Sample.context (Some Sample.alice))
                      (1 # 2) (Some "Pass") (Some true))).
Proof.
  split; [simpl; discriminate|].
  exact (read_returns_stored_grade_whatever_its_hash
           (Sample.env false true false) Sample.alice Sample.args
           (Sample.context (Some Sample.alice))
           (Sample.world_with (Sample.row Sample.alice "hash-1"))
           (Sample.row Sample.alice "hash-1") eq_refl eq_refl eq_refl).
Defined.

(** X3: For a course context that resolves, [read] never raises, and it returns
    [None] exactly when assume-zero-if-absent is false and there is nothing
    to read: persistence is disabled for the course or no row is stored. *)
Theorem read_returns_None_exactly_when_nothing_is_readable
    (env : Collaborators) (user : User.t) (args : CourseArgs.t)
    (cd : CourseData.t) (w : World) :
  CourseData_init env (Some user) args = Return cd →
  (∃ answer, fst (CourseGradeFactory.read env user args w) = Return answer) ∧
  (fst (CourseGradeFactory.read env user args w) = Return None ↔
   assume_zero_if_absent env (CourseData.course_key cd) = false ∧
   (should_persist_grades env (CourseData.course_key cd) = false ∨
    grades w !! (User.id user, CourseData.course_key cd) = None)).
Proof.
  intros Hcd.
  destruct (should_persist_grades env (CourseData.course_key cd)) eqn:Hp.
  - destruct (grades w !! (User.id user, CourseData.course_key cd))
      as [row|] eqn:Hrow.
    + unfold CourseGradeFactory.read, bind, lift, try_except.
      rewrite Hcd, (_read_found env user cd w row Hp Hrow). simpl.
      split; [by eexists|]. split; [discriminate|].
      intros [_ [?|?]]; discriminate.
    + rewrite (read_not_found env user args cd w Hcd
                 (_read_absent env user cd w Hrow)).
      destruct (assume_zero_if_absent env _); simpl.
      * split; [by eexists|]. split; [discriminate|]. by intros [? _].
      * split; [by eexists|]. split; [|done]. intros _. split; [done|by right].
  - rewrite (read_not_found env user args cd w Hcd
               (_read_disabled env user cd w Hp)).
    destruct (assume_zero_if_absent env _); simpl.
    + split; [by eexists|]. split; [discriminate|]. by intros [? _].
    + split; [by eexists|]. split; [|done]. intros _. split; [done|by left].
Qed.

Lemma read_returns_None_exactly_when_nothing_is_readable_witness :
  fst (CourseGradeFactory.read (Sample.env false true false) Sample.alice
         Sample.args Sample.empty_world) = Return None.
Proof.
  destruct (read_returns_None_exactly_when_nothing_is_readable
              (Sample.env false true false) Sample.alice Sample.args
              (Sample.context (Some Sample.alice)) Sample.empty_world eq_refl)
    as [_ [_ Hnone]].
  apply Hnone. split; [reflexivity | right; reflexivity].
Defined.

(** ** What recomputation writes, and when *)

Lemma _update_without_writing env user cd read_only w :
  read_only = true ∨
  should_persist_grades env (CourseData.course_key cd) = false →
  grades (snd (CourseGradeFactory._update env user cd read_only w))
    = grades w ∧
  count is_upsert
    (trace (snd (CourseGradeFactory._update env user cd read_only w)))
    = count is_upsert (trace w).
Proof.
  intros Hno.
  destruct (compute env user cd) as [exc|b] eqn:Hc.
  - rewrite (_update_raises env user cd read_only w exc Hc). simpl.
    rewrite count_app. change (count _ [_]) with 0%nat. split; [done|lia].
  - destruct (_update_returns env user cd read_only w b Hc)
      as (_ & _ & Hg & _).
    rewrite Hg, (_update_upserts env user cd read_only w b Hc).
    assert (writes env read_only cd
              (CourseGrade.assign (CourseGrade.blank user cd) b) = false)
      as ->; [|split; [done|lia]].
    unfold writes. destruct Hno as [-> | ->]; [done|].
    by rewrite andb_false_r.
Qed.

(** X4: When persistence is disabled for the course, neither [create] nor
    [update] ever writes to the store, whichever path they take and whether
    or not the calculator fails. *)
Theorem nothing_is_written_when_persistence_is_disabled
    (env : Collaborators) (user : User.t) (args : CourseArgs.t)
    (cd : CourseData.t) (w : World) :
  CourseData_init env (Some user) args = Return cd →
  should_persist_grades env (CourseData.course_key cd) = false →
  grades (snd (CourseGradeFactory.create env user args w)) = grades w ∧
  count is_upsert (trace (snd (CourseGradeFactory.create env user args w)))
    = count is_upsert (trace w) ∧
  grades (snd (CourseGradeFactory.update env user args w)) = grades w ∧
  count is_upsert (trace (snd (CourseGradeFactory.update env user args w)))
    = count is_upsert (trace w).
Proof.
  intros Hcd Hoff.
  rewrite (update_unfold env user args cd w Hcd),
    (create_not_found env user args cd w Hcd
       (_read_disabled env user cd w Hoff)).
  destruct (_update_without_writing env user cd false w (or_intror Hoff))
    as [Hg Hu].
  destruct (_update_without_writing env user cd true w (or_introl eq_refl))
    as [Hg' Hu'].
  destruct (assume_zero_if_absent env _); simpl.
  - rewrite count_app. change (count _ [_]) with 0%nat.
    repeat split; (done || lia).
  - done.
Qed.

Lemma nothing_is_written_when_persistence_is_disabled_witness :
  let env := Sample.env false false false in
  let w := Sample.world_with (Sample.row Sample.alice "hash-1") in
  grades (snd (CourseGradeFactory.create env Sample.alice Sample.args w))
    = grades w ∧
  count is_upsert
    (trace (snd (CourseGradeFactory.create env Sample.alice Sample.args w)))
    = count is_upsert (trace w) ∧
  grades (snd (CourseGradeFactory.update env Sample.alice Sample.args w))
    = grades w ∧
  count is_upsert
    (trace (snd (CourseGradeFactory.update env Sample.alice Sample.args w)))
    = count is_upsert (trace w).
Proof.
  exact (nothing_is_written_when_persistence_is_disabled
           (Sample.env false false false) Sample.alice Sample.args
           (Sample.context (Some Sample.alice))
           (Sample.world_with (Sample.row Sample.alice "hash-1"))
           eq_refl eq_refl).
Defined.

(** X5: When the grade calculator raises, [update] raises the same exception,
    and so does [create] whenever it has to recompute (stale policy, or
    nothing readable and no zero grade assumed): nothing is written and
    nobody is notified.  The exception is not handled even when it is the
    not-found error that [create] catches around its read. *)
Theorem calculator_failure_propagates_without_effect
    (env : Collaborators) (user : User.t) (args : CourseArgs.t)
    (cd : CourseData.t) (exc : Exception) :
  CourseData_init env (Some user) args = Return cd →
  compute env user cd = Raise exc →
  (∀ w,
     let after := snd (CourseGradeFactory.update env user args w) in
     fst (CourseGradeFactory.update env user args w) = Raise exc ∧
     grades after = grades w ∧
     notifications (trace after) = notifications (trace w)) ∧
  (∀ w row,
     should_persist_grades env (CourseData.course_key cd) = true →
     grades w !! (User.id user, CourseData.course_key cd) = Some row →
     PersistentCourseGrade.grading_policy_hash row
       ≠ CourseData.grading_policy_hash cd →
     let after := snd (CourseGradeFactory.create env user args w) in
     fst (CourseGradeFactory.create env user args w) = Raise exc ∧
     grades after = grades w ∧
     notifications (trace after) = notifications (trace w)) ∧
  (∀ w,
     should_persist_grades env (CourseData.course_key cd) = false ∨
     grades w !! (User.id user, CourseData.course_key cd) = None →
     assume_zero_if_absent env (CourseData.course_key cd) = false →
     let after := snd (CourseGradeFactory.create env user args w) in
     fst (CourseGradeFactory.create env user args w) = Raise exc ∧
     grades after = grades w ∧
     notifications (trace after) = notifications (trace w)).
Proof.
  intros Hcd Hc.
  assert (∀ read_only w,
            let r := CourseGradeFactory._update env user cd read_only w in
            fst r = Raise exc ∧ grades (snd r) = grades w ∧
            notifications (trace (snd r)) = notifications (trace w))
    as Hfail.
  { intros read_only w. cbv zeta.
    rewrite (_update_raises env user cd read_only w exc Hc). simpl.
    rewrite notifications_app. simpl. by rewrite app_nil_r. }
  split; [|split].
  - intros w. cbv zeta. rewrite (update_unfold env user args cd w Hcd).
    apply Hfail.
  - intros w row Hp Hrow Hstale. cbv zeta.
    rewrite (create_stale env user args cd w row Hcd Hp Hrow Hstale).
    destruct (Hfail false (record w [LogInfo "Read" (User.id user)]))
      as (Hr & Hg & Hn).
    rewrite Hr, Hg, Hn. simpl. rewrite notifications_app. simpl.
    by rewrite app_nil_r.
  - intros w Hnone Hzero. cbv zeta.
    assert (CourseGradeFactory._read env user cd w = (Raise DoesNotExist, w))
      as Hread
      by (destruct Hnone; [by apply _read_disabled | by apply _read_absent]).
    rewrite (create_not_found env user args cd w Hcd Hread), Hzero.
    apply Hfail.
Qed.

Lemma calculator_failure_propagates_without_effect_witness :
  let env := Sample.env false true false in
  let carol := {| User.id := 3 |} in
  fst (CourseGradeFactory.update env carol Sample.args Sample.empty_world)
    = Raise (CalculatorError "no such learner") ∧
  fst (CourseGradeFactory.create env carol Sample.args Sample.empty_world)
    = Raise (CalculatorError "no such learner") ∧
  grades (snd (CourseGradeFactory.create env carol Sample.args
                 Sample.empty_world)) = grades Sample.empty_world.
Proof.
  destruct (calculator_failure_propagates_without_effect
              (Sample.env false true false) {| User.id := 3 |} Sample.args
              (Sample.context (Some {| User.id := 3 |}))
              (CalculatorError "no such learner") eq_refl eq_refl)
    as (Hupdate & _ & Hcreate).
  destruct (Hupdate Sample.empty_world) as (Hu & _).
  destruct (Hcreate Sample.empty_world (or_intror eq_refl) eq_refl)
    as (Hc & Hg & _).
  split; [exact Hu|]. split; [exact Hc | exact Hg].
Defined.

(** ** Composing the operations *)

(** X6: After an [update] that persists (persistence enabled, engagement gate
    disabled or grade attempted), a [create] for the same learner and course
    context is served from the store: it reads back the percent just
    computed and the letter grade (or the empty string for none), without
    invoking the calculator, writing or notifying again. *)
Theorem create_after_update_reads_back_the_grade
    (env : Collaborators) (user : User.t) (args : CourseArgs.t)
    (cd : CourseData.t) (b : Breakdown.t) (w : World) :
  CourseData_init env (Some user) args = Return cd →
  compute env user cd = Return b →
  should_persist_grades env (CourseData.course_key cd) = true →
  WRITE_ONLY_IF_ENGAGED env = false ∨ Breakdown.attempted b = true →
  let updated := snd (CourseGradeFactory.update env user args w) in
  let again := CourseGradeFactory.create env user args updated in
  ∃ g : CourseGrade.t,
    fst again = Return g ∧
    CourseGrade.percent g = Breakdown.percent b ∧
    CourseGrade.letter_grade g
      = Some (CourseGradeFactory.or_empty (Breakdown.letter_grade b)) ∧
    grades (snd again) = grades updated ∧
    count is_computation (trace (snd again))
      = count is_computation (trace updated) ∧
    count is_upsert (trace (snd again)) = count is_upsert (trace updated) ∧
    notifications (trace (snd again)) = notifications (trace updated).
Proof.
  intros Hcd Hc Hp Hgate updated again. subst again updated.
  rewrite (update_unfold env user args cd w Hcd).
  destruct (_update_returns env user cd false w b Hc) as (_ & _ & Hg & _).
  assert (writes env false cd
            (CourseGrade.assign (CourseGrade.blank user cd) b) = true) as Hw.
  { unfold writes. rewrite Hp. simpl.
    destruct Hgate as [-> | ->]; [done | by rewrite orb_true_r]. }
  rewrite Hw in Hg.
  set (updated := snd (CourseGradeFactory._update env user cd false w)) in *.
  assert (grades updated !! (User.id user, CourseData.course_key cd)
          = Some (row_written user cd
                    (CourseGrade.assign (CourseGrade.blank user cd) b) w))
    as Hrow by (rewrite Hg; apply lookup_insert_eq).
  rewrite (create_fast env user args cd updated _ Hcd Hp Hrow eq_refl).
  eexists. split; [reflexivity|]. simpl.
  rewrite !count_app, notifications_app. simpl. rewrite app_nil_r.
  unfold count. simpl. repeat split; lia.
Qed.

Lemma create_after_update_reads_back_the_grade_witness :
  let env := Sample.env false true false in
  let updated :=
    snd (CourseGradeFactory.update env Sample.alice Sample.args
           Sample.empty_world) in
  let again := CourseGradeFactory.create env Sample.alice Sample.args updated in
  ∃ g : CourseGrade.t,
    fst again = Return g ∧
    CourseGrade.percent g = 4 # 5 ∧
    CourseGrade.letter_grade g = Some "Pass" ∧
    grades (snd again) = grades updated ∧
    count is_computation (trace (snd again))
      = count is_computation (trace updated) ∧
    count is_upsert (trace (snd again)) = count is_upsert (trace updated) ∧
    notifications (trace (snd again)) = notifications (trace updated).
Proof.
  exact (create_after_update_reads_back_the_grade
           (Sample.env false true false) Sample.alice Sample.args
           (Sample.context (Some Sample.alice))
           {| Breakdown.percent := 4 # 5;
              Breakdown.letter_grade := Some "Pass";
              Breakdown.passed := Some true;
              Breakdown.attempted := true |}
           Sample.empty_world eq_refl eq_refl eq_refl (or_introl eq_refl)).
Defined.

(** X7: A grade that [create] computes for want of a stored row (assume-zero
    false) is not cached: the table is left as it was, so the next [create]
    invokes the calculator again. *)
Theorem create_on_a_miss_recomputes_every_time
    (env : Collaborators) (user : User.t) (args : CourseArgs.t)
    (cd : CourseData.t) (w : World) :
  CourseData_init env (Some user) args = Return cd →
  grades w !! (User.id user, CourseData.course_key cd) = None →
  assume_zero_if_absent env (CourseData.course_key cd) = false →
  let once := snd (CourseGradeFactory.create env user args w) in
  let twice := snd (CourseGradeFactory.create env user args once) in
  grades once = grades w ∧
  grades twice = grades w ∧
  count is_computation (trace once) = S (count is_computation (trace w)) ∧
  count is_computation (trace twice)
    = S (S (count is_computation (trace w))).
Proof.
  intros Hcd Habsent Hzero once twice. subst twice once.
  pose proof (create_not_found env user args cd w Hcd
                (_read_absent env user cd w Habsent)) as Hfirst.
  rewrite Hzero in Hfirst. rewrite Hfirst.
  destruct (_update_read_only env user cd w) as [Hg _].
  set (once := snd (CourseGradeFactory._update env user cd true w)) in *.
  assert (grades once !! (User.id user, CourseData.course_key cd) = None)
    as Habsent' by (by rewrite Hg).
  pose proof (create_not_found env user args cd once Hcd
                (_read_absent env user cd once Habsent')) as Hsecond.
  rewrite Hzero in Hsecond. rewrite Hsecond.
  destruct (_update_read_only env user cd once) as [Hg' _].
  split; [done|]. split; [congruence|].
  rewrite _update_computes_once. unfold once.
  by rewrite _update_computes_once.
Qed.

Lemma create_on_a_miss_recomputes_every_time_witness :
  let env := Sample.env false true false in
  let once :=
    snd (CourseGradeFactory.create env Sample.alice Sample.args
           Sample.empty_world) in
  let twice := snd (CourseGradeFactory.create env Sample.alice Sample.args once) in
  grades once = grades Sample.empty_world ∧
  grades twice = grades Sample.empty_world ∧
  count is_computation (trace once) = 1%nat ∧
  count is_computation (trace twice) = 2%nat.
Proof.
  exact (create_on_a_miss_recomputes_every_time
           (Sample.env false true false) Sample.alice Sample.args
           (Sample.context (Some Sample.alice)) Sample.empty_world
           eq_refl eq_refl eq_refl).
Defined.

(** X8: When [update] persists, the row is written before any listener is
    notified: in the events of the call the upsert comes first, no
    notification precedes it, and both notifications (if any) follow it. *)
Theorem update_persists_before_it_notifies
    (env : Collaborators) (user : User.t) (args : CourseArgs.t)
    (cd : CourseData.t) (b : Breakdown.t) (w : World) :
  CourseData_init env (Some user) args = Return cd →
  compute env user cd = Return b →
  should_persist_grades env (CourseData.course_key cd) = true →
  WRITE_ONLY_IF_ENGAGED env = false ∨ Breakdown.attempted b = true →
  ∃ (before after : list Event) (row : PersistentCourseGrade.t),
    trace (snd (CourseGradeFactory.update env user args w))
      = trace w ++ before ++ GradeUpserted row :: after ∧
    notifications before = [] ∧
    count is_upsert before = 0%nat ∧
    count is_upsert after = 0%nat ∧
    notifications after ≠ [] ∧
    PersistentCourseGrade.user_id row = User.id user ∧
    PersistentCourseGrade.course_id row = CourseData.course_key cd ∧
    PersistentCourseGrade.grading_policy_hash row
      = CourseData.grading_policy_hash cd ∧
    PersistentCourseGrade.percent_grade row = Breakdown.percent b.
Proof.
  intros Hcd Hc Hp Hgate.
  rewrite (update_unfold env user args cd w Hcd).
  destruct (_update_returns env user cd false w b Hc) as (_ & _ & _ & Ht).
  assert (writes env false cd
            (CourseGrade.assign (CourseGrade.blank user cd) b) = true) as Hw.
  { unfold writes. rewrite Hp. simpl.
    destruct Hgate as [-> | ->]; [done | by rewrite orb_true_r]. }
  rewrite Hw in Ht.
  eexists [GradeComputed user cd; SubsectionsBulkCreated user cd], _, _.
  split; [rewrite Ht; simpl; reflexivity|].
  destruct (is_True _); unfold count; simpl; repeat split; done.
Qed.

Lemma update_persists_before_it_notifies_witness :
  ∃ (before after : list Event) (row : PersistentCourseGrade.t),
    trace (snd (CourseGradeFactory.update (Sample.env false true false)
                  Sample.alice Sample.args Sample.empty_world))
      = trace Sample.empty_world ++ before ++ GradeUpserted row :: after ∧
    notifications before = [] ∧
    count is_upsert before = 0%nat ∧
    count is_upsert after = 0%nat ∧
    notifications after ≠ [] ∧
    PersistentCourseGrade.user_id row = 1 ∧
    PersistentCourseGrade.course_id row = "course-v1:edX+DemoX+T1" ∧
    PersistentCourseGrade.grading_policy_hash row = "hash-2" ∧
    PersistentCourseGrade.percent_grade row = 4 # 5.
Proof.
  exact (update_persists_before_it_notifies
           (Sample.env false true false) Sample.alice Sample.args
           (Sample.context (Some Sample.alice))
           {| Breakdown.percent := 4 # 5;
              Breakdown.letter_grade := Some "Pass";
              Breakdown.passed := Some true;
              Breakdown.attempted := true |}
           Sample.empty_world eq_refl eq_refl eq_refl (or_introl eq_refl)).
Defined.

(** ** Any generator, any consumer *)

Lemma loop_step env cd tags users force_update w :
  match CourseGradeFactory.loop env cd tags users force_update w with
  | (CourseGradeFactory.Yielded r, g', w') =>
      ∃ user rest,
        users = user :: rest ∧
        g' = CourseGradeFactory.Suspended cd tags rest force_update ∧
        let run := graded env force_update user cd (reset w) in
        r = result_of user (fst run) ∧
        w' = replay (record w [TimerEntered tags])
               (record (snd run) (logged user cd (fst run)))
  | (_, g', w') =>
      users = [] ∧ g' = CourseGradeFactory.Finished ∧
      w' = record w [CacheCleared (CourseData.course_key cd)]
  end.
Proof.
  destruct users as [|user rest]; [done|].
  unfold CourseGradeFactory.loop, CourseGradeFactory.timer_enter, emit. simpl.
  rewrite _iter_grade_result_eq.
  rewrite (write_only_graded env force_update user cd
             (record w [TimerEntered tags])).
  rewrite reset_record.
  destruct (graded env force_update user cd (reset w)) as [[exc|g] w1]
    eqn:Hrun; simpl;
    exists user, rest; cbv zeta; rewrite Hrun; simpl; repeat split; try done.
  - unfold replay, record. simpl. by rewrite app_assoc.
  - unfold replay, record. simpl. by rewrite app_nil_r.
Qed.

Lemma next_step env g w :
  match CourseGradeFactory.next env g w with
  | (CourseGradeFactory.Yielded r, g', w') =>
      ∃ user rest cd tags force_update timers,
        CourseGradeFactory.pending g = user :: rest ∧
        g' = CourseGradeFactory.Suspended cd tags rest force_update ∧
        forallb is_timer timers = true ∧
        let run := graded env force_update user cd (reset w) in
        r = result_of user (fst run) ∧
        w' = replay (record w timers)
               (record (snd run) (logged user cd (fst run)))
  | (_, g', w') =>
      g' = CourseGradeFactory.Finished ∧
      ∃ events, w' = record w events ∧ forallb is_plumbing events = true
  end.
Proof.
  destruct g as [users args force_update|cd tags users force_update|].
  - unfold CourseGradeFactory.next.
    destruct (CourseData_init env None _) as [exc|cd].
    + split; [done|]. exists []. by destruct w; unfold record; simpl;
        rewrite app_nil_r.
    + simpl snd.
      pose proof (loop_step env cd
                    [String.append "action:" (CourseData.course_key cd)]
                    users force_update w) as Hloop.
      destruct (CourseGradeFactory.loop env cd _ users force_update w)
        as [[[r| |exc] g'] w'].
      * destruct Hloop as (user & rest & -> & -> & Hr & Hw).
        exists user, rest, cd, (stats_tags cd), force_update,
          [TimerEntered (stats_tags cd)].
        repeat split; done.
      * destruct Hloop as (_ & -> & ->). split; [done|]. by eexists.
      * destruct Hloop as (_ & -> & ->). split; [done|]. by eexists.
  - rewrite next_Suspended.
    pose proof (loop_step env cd tags users force_update
                  (record w [TimerExited tags])) as Hloop.
    destruct (CourseGradeFactory.loop env cd tags users force_update _)
      as [[[r| |exc] g'] w'].
    + destruct Hloop as (user & rest & -> & -> & Hr & Hw).
      exists user, rest, cd, tags, force_update,
        [TimerExited tags; TimerEntered tags].
      rewrite reset_record in Hr, Hw. rewrite record_record in Hw.
      repeat split; done.
    + destruct Hloop as (_ & -> & ->). split; [done|].
      rewrite record_record. by eexists.
    + destruct Hloop as (_ & -> & ->). split; [done|].
      rewrite record_record. by eexists.
  - simpl. split; [done|]. exists []. by destruct w; unfold record; simpl;
      rewrite app_nil_r.
Qed.

(** *** Events a method never emits *)

Section Keeps.
Context (p : Event → bool).

Lemma keeps_ret {A} (a : A) : keeps p (ret a).
Proof. by intros w. Qed.

Lemma keeps_raise {A} (e : Exception) : keeps p (@raise A e).
Proof. by intros w. Qed.

Lemma keeps_lift {A} (r : Result A) : keeps p (lift r).
Proof. by intros w. Qed.

Lemma keeps_emit (e : Event) : p e = false → keeps p (emit e).
Proof.
  intros He w. unfold emit. simpl. rewrite count_app.
  unfold count at 2. simpl. rewrite He. simpl. lia.
Qed.

Lemma keeps_bind {A B} (m : M A) (k : A → M B) :
  keeps p m → (∀ a, keeps p (k a)) → keeps p (bind m k).
Proof.
  intros Hm Hk w. unfold bind. specialize (Hm w).
  destruct (m w) as [[exc|a] w1]; simpl in *; [done|].
  by rewrite Hk.
Qed.

Lemma keeps_try_except {A} (body : M A) handles (handler : Exception → M A) :
  keeps p body → (∀ e, keeps p (handler e)) →
  keeps p (try_except body handles handler).
Proof.
  intros Hm Hk w. unfold try_except. specialize (Hm w).
  destruct (body w) as [[exc|a] w1]; simpl in *; [|done].
  destruct (handles exc); simpl; [by rewrite Hk | done].
Qed.

Lemma keeps_PersistentCourseGrade_read uid ck :
  keeps p (PersistentCourseGrade_read uid ck).
Proof. by intros w. Qed.

Lemma keeps_PersistentCourseGrade_update_or_create
    uid ck ver edited hash pct letter pass :
  (∀ row, p (GradeUpserted row) = false) →
  keeps p (PersistentCourseGrade_update_or_create
             uid ck ver edited hash pct letter pass).
Proof.
  intros Hp w. unfold PersistentCourseGrade_update_or_create. simpl.
  rewrite count_app. unfold count at 2. simpl. rewrite Hp. simpl. lia.
Qed.
End Keeps.

Ltac keeps :=
  cbv zeta;
  repeat first
    [ assumption
    | apply keeps_ret | apply keeps_raise | apply keeps_lift
    | apply keeps_PersistentCourseGrade_read
    | apply keeps_PersistentCourseGrade_update_or_create; reflexivity
    | apply keeps_emit; reflexivity
    | apply keeps_bind; [|intros]
    | apply keeps_try_except; [|intros]
    | match goal with
      | |- keeps _ (if ?c then _ else _) => destruct c
      | |- keeps _ (match ?x with _ => _ end) => destruct x
      end ].

(** No method logs an exception: only [_iter_grade_result] does. *)
Lemma keeps_logged_exception_graded env force_update user cd :
  keeps is_logged_exception (graded env force_update user cd).
Proof.
  assert (∀ u c, keeps is_logged_exception (CourseGradeFactory._read env u c))
    as Hread by (intros; unfold CourseGradeFactory._read; keeps).
  assert (∀ u c r,
            keeps is_logged_exception (CourseGradeFactory._update env u c r))
    as Hupdate.
  { intros. unfold CourseGradeFactory._update,
      CourseGradeFactory.CourseGrade_update. keeps. }
  unfold graded. destruct force_update.
  - unfold CourseGradeFactory.update. keeps; try apply Hupdate.
  - unfold CourseGradeFactory.create, CourseGradeFactory._create_zero.
    keeps; try (apply Hread || apply Hupdate).
Qed.

(** A method call invokes the calculator at most once. *)
Lemma graded_computes_at_most_once env force_update user cd w :
  (count is_computation (trace (snd (graded env force_update user cd w)))
   ≤ S (count is_computation (trace w)))%nat.
Proof.
  assert (∀ c r w0,
            (count is_computation
               (trace (snd (CourseGradeFactory._update env user c r w0)))
             ≤ S (count is_computation (trace w0)))%nat) as Hupdate
    by (intros; rewrite _update_computes_once; lia).
  assert (∀ what, count is_computation
                    (trace (record w [LogInfo what (User.id user)]))
                  = count is_computation (trace w)) as Hlog.
  { intros what. simpl. rewrite count_app. unfold count at 2. simpl. lia. }
  unfold graded.
  set (a := {| CourseArgs.course := _ |}).
  destruct force_update.
  - unfold CourseGradeFactory.update, bind, lift.
    destruct (CourseData_init env (Some user) a) as [exc|c]; simpl; [lia|].
    apply Hupdate.
  - destruct (CourseData_init env (Some user) a) as [exc|c] eqn:Hcd.
    { unfold CourseGradeFactory.create, bind, lift. rewrite Hcd. simpl. lia. }
    destruct (should_persist_grades env (CourseData.course_key c)) eqn:Hp;
      [destruct (grades w !! (User.id user, CourseData.course_key c))
         as [row|] eqn:Hrow|].
    + destruct (decide (PersistentCourseGrade.grading_policy_hash row
                        = CourseData.grading_policy_hash c)) as [Heq|Hne].
      * rewrite (create_fast env user a c w row Hcd Hp Hrow Heq).
        simpl snd. rewrite Hlog. lia.
      * rewrite (create_stale env user a c w row Hcd Hp Hrow Hne).
        etransitivity; [apply Hupdate|]. rewrite Hlog. lia.
    + rewrite (create_not_found env user a c w Hcd
                 (_read_absent env user c w Hrow)).
      destruct (assume_zero_if_absent env _); [|apply Hupdate].
      simpl snd. rewrite Hlog. lia.
    + rewrite (create_not_found env user a c w Hcd
                 (_read_disabled env user c w Hp)).
      destruct (assume_zero_if_absent env _); [|apply Hupdate].
      simpl snd. rewrite Hlog. lia.
Qed.

Lemma count_none p q (events : list Event) :
  forallb q events = true → (∀ e, q e = true → p e = false) →
  count p events = 0%nat.
Proof.
  intros Hall Hpq. unfold count.
  induction events as [|e events IH]; [done|].
  simpl in *. apply andb_true_iff in Hall as [He Hall].
  rewrite (Hpq e He). by apply IH.
Qed.

(** ** Whose rows a call can change *)

(** X9: [create] and [update] for a learner leave the rows of every other
    learner, and the clock, as they are. *)
Theorem methods_touch_only_their_own_learner
    (env : Collaborators) (user : User.t) (args : CourseArgs.t) (w : World)
    (uid : Z) (ck : CourseKey) :
  uid ≠ User.id user →
  grades (snd (CourseGradeFactory.create env user args w)) !! (uid, ck)
    = grades w !! (uid, ck) ∧
  grades (snd (CourseGradeFactory.update env user args w)) !! (uid, ck)
    = grades w !! (uid, ck) ∧
  now (snd (CourseGradeFactory.create env user args w)) = now w ∧
  now (snd (CourseGradeFactory.update env user args w)) = now w.
Proof.
  intros Hne.
  destruct (confined_create env user args w) as [Hn Hg].
  destruct (confined_update env user args w) as [Hn' Hg'].
  repeat split; try done; symmetry; auto.
Qed.

Lemma methods_touch_only_their_own_learner_witness :
  let env := Sample.env false true false in
  let w := Sample.world_with (Sample.row Sample.bob "hash-1") in
  grades (snd (CourseGradeFactory.create env Sample.alice Sample.args w))
    !! (2, "course-v1:edX+DemoX+T1") = Some (Sample.row Sample.bob "hash-1") ∧
  grades (snd (CourseGradeFactory.update env Sample.alice Sample.args w))
    !! (2, "course-v1:edX+DemoX+T1") = Some (Sample.row Sample.bob "hash-1").
Proof.
  assert (2 ≠ User.id Sample.alice) as Hother by (simpl; discriminate).
  destruct (methods_touch_only_their_own_learner
              (Sample.env false true false) Sample.alice Sample.args
              (Sample.world_with (Sample.row Sample.bob "hash-1"))
              2 "course-v1:edX+DemoX+T1" Hother) as (Hc & Hu & _).
  split; [exact Hc | exact Hu].
Defined.

(** X10: Whatever a consumer takes from a generator of [iter], in any state, the
    rows of a learner who is not the student of any result taken are as they
    were. *)
Theorem iter_touches_only_the_learners_it_yields
    (env : Collaborators) (n : nat) :
  ∀ (g : CourseGradeFactory.Generator) (w : World) (uid : Z) (ck : CourseKey),
    Forall (λ r, User.id (CourseGradeFactory.student r) ≠ uid)
      (CourseGradeFactory.take env n g w).1.1 →
    grades (CourseGradeFactory.take env n g w).2 !! (uid, ck)
      = grades w !! (uid, ck).
Proof.
  induction n as [|n IH]; intros g w uid ck; simpl; [done|].
  pose proof (next_step env g w) as Hstep.
  destruct (CourseGradeFactory.next env g w) as [[[r| |exc] g'] w'].
  - destruct Hstep
      as (user & rest & cd & tags & force_update & timers & _ & _ & _ & Hr & Hw).
    specialize (IH g' w' uid ck).
    destruct (CourseGradeFactory.take env n g' w') as [[rs g''] w''].
    simpl in *. intros Hall. inversion Hall as [|? ? Hhead Htail]; subst.
    rewrite (IH Htail). simpl.
    destruct (confined_graded env force_update user cd (reset w)) as [_ Hg].
    symmetry. apply (Hg uid ck).
    by destruct (fst (graded env force_update user cd (reset w))).
  - destruct Hstep as (_ & events & -> & _). done.
  - destruct Hstep as (_ & events & -> & _). done.
Qed.

(** ** Laziness and logging *)

(** X11: Each element taken from a generator of [iter] costs at most one
    invocation of the grade calculator: after any consumer has taken its
    elements, the calculator has run at most once per element taken. *)
Theorem each_element_costs_at_most_one_computation
    (env : Collaborators) (n : nat) :
  ∀ (g : CourseGradeFactory.Generator) (w : World),
    (count is_computation (trace (CourseGradeFactory.take env n g w).2)
     ≤ count is_computation (trace w)
       + length (CourseGradeFactory.take env n g w).1.1)%nat.
Proof.
  induction n as [|n IH]; intros g w; simpl; [lia|].
  pose proof (next_step env g w) as Hstep.
  destruct (CourseGradeFactory.next env g w) as [[[r| |exc] g'] w'].
  - destruct Hstep
      as (user & rest & cd & tags & force_update & timers & _ & _ & Ht & Hr & Hw).
    specialize (IH g' w').
    destruct (CourseGradeFactory.take env n g' w') as [[rs g''] w''].
    simpl in *.
    assert (count is_computation (trace w')
            ≤ S (count is_computation (trace w)))%nat; [|lia].
    rewrite Hw. simpl. rewrite !count_app.
    rewrite (count_none is_computation is_timer timers Ht)
      by (by intros []).
    pose proof (graded_computes_at_most_once env force_update user cd
                  (reset w)) as Hone.
    simpl in Hone. change (count is_computation []) with 0%nat in Hone.
    assert (count is_computation
              (logged user cd (graded env force_update user cd (reset w)).1)
            = 0%nat) by (by destruct (fst _)).
    lia.
  - destruct Hstep as (_ & events & -> & Hp). simpl.
    rewrite count_app, (count_none is_computation is_plumbing events Hp);
      [lia | by intros []].
  - destruct Hstep as (_ & events & -> & Hp). simpl.
    rewrite count_app, (count_none is_computation is_plumbing events Hp);
      [lia | by intros []].
Qed.

(** X12: Every learner that could not be graded is logged exactly once: after
    any consumer has taken its elements from a generator of [iter], the
    number of exception log lines has grown by the number of error results
    taken. *)
Theorem every_error_result_is_logged_once
    (env : Collaborators) (n : nat) :
  ∀ (g : CourseGradeFactory.Generator) (w : World),
    count is_logged_exception (trace (CourseGradeFactory.take env n g w).2)
    = (count is_logged_exception (trace w)
       + length (List.filter has_error
                   (CourseGradeFactory.take env n g w).1.1))%nat.
Proof.
  induction n as [|n IH]; intros g w; simpl; [lia|].
  pose proof (next_step env g w) as Hstep.
  destruct (CourseGradeFactory.next env g w) as [[[r| |exc] g'] w'].
  - destruct Hstep
      as (user & rest & cd & tags & force_update & timers & _ & _ & Ht & Hr & Hw).
    specialize (IH g' w').
    destruct (CourseGradeFactory.take env n g' w') as [[rs g''] w''].
    simpl in *. rewrite IH, Hw, Hr. simpl. rewrite !count_app.
    rewrite (count_none is_logged_exception is_timer timers Ht)
      by (by intros []).
    pose proof (keeps_logged_exception_graded env force_update user cd
                  (reset w)) as Hnone.
    simpl in Hnone. rewrite Hnone.
    change (count is_logged_exception []) with 0%nat.
    destruct (fst (graded env force_update user cd (reset w))); simpl;
      unfold count; simpl; lia.
  - destruct Hstep as (_ & events & -> & Hp). simpl.
    rewrite count_app, (count_none is_logged_exception is_plumbing events Hp);
      [lia | by intros []].
  - destruct Hstep as (_ & events & -> & Hp). simpl.
    rewrite count_app, (count_none is_logged_exception is_plumbing events Hp);
      [lia | by intros []].
Qed.

(** ** A single-pass sequence *)

Lemma take_exhausts env n :
  ∀ g w,
    (length (CourseGradeFactory.pending g) < n)%nat →
    (CourseGradeFactory.take env n g w).1.2 = CourseGradeFactory.Finished.
Proof.
  induction n as [|n IH]; intros g w Hlen; [lia|]. simpl.
  pose proof (next_step env g w) as Hstep.
  destruct (CourseGradeFactory.next env g w) as [[[r| |exc] g'] w'].
  - destruct Hstep
      as (user & rest & cd & tags & force_update & timers & Hp & -> & _).
    specialize (IH (CourseGradeFactory.Suspended cd tags rest force_update) w').
    destruct (CourseGradeFactory.take env n _ w') as [[rs g''] w''].
    simpl in *. apply IH. rewrite Hp in Hlen. simpl in Hlen. lia.
  - by destruct Hstep as [-> _].
  - by destruct Hstep as [-> _].
Qed.

(** X13: The sequence is single-pass: once a generator of [iter] has been
    consumed to its end it is finished, and any further consumption yields
    nothing and has no effect (in particular the cache is not cleared
    again); closing it has no effect either. *)
Theorem consumed_generator_yields_nothing_more
    (env : Collaborators) (g : CourseGradeFactory.Generator) (w : World) :
  let consumed := CourseGradeFactory.consume env g w in
  consumed.1.2 = CourseGradeFactory.Finished ∧
  (∀ n, CourseGradeFactory.take env n consumed.1.2 consumed.2
        = ([], CourseGradeFactory.Finished, consumed.2)) ∧
  CourseGradeFactory.consume env consumed.1.2 consumed.2
    = ([], CourseGradeFactory.Finished, consumed.2) ∧
  CourseGradeFactory.close consumed.1.2 consumed.2
    = (CourseGradeFactory.Finished, consumed.2).
Proof.
  intros consumed.
  assert (consumed.1.2 = CourseGradeFactory.Finished) as Hdone
    by (apply take_exhausts; lia).
  rewrite Hdone. split; [done|].
  split; [intros n; apply take_Finished|].
  split; reflexivity.
Qed.

(** ** Partial consumption *)

(** X14: A consumer that takes [n] elements (for a course context that resolves)
    gets the results of the first [n] learners, in order, and they are the
    first [n] results of a full consumption from the same world. *)
Theorem partial_consumption_is_a_prefix
    (env : Collaborators) (users : list User.t) (args : CourseArgs.t)
    (force_update : bool) (w : World) (cd : CourseData.t) (n : nat) :
  CourseData_init env None (iter_args args) = Return cd →
  let g := CourseGradeFactory.iter users args force_update in
  map CourseGradeFactory.student (CourseGradeFactory.take env n g w).1.1
    = take n users ∧
  (CourseGradeFactory.take env n g w).1.1
    = take n (CourseGradeFactory.consume env g w).1.1.
Proof.
  intros Hcd g. subst g.
  pose proof (live_iter env cd force_update users args Hcd) as Hlive.
  unfold CourseGradeFactory.consume.
  change (CourseGradeFactory.pending
            (CourseGradeFactory.iter users args force_update)) with users.
  destruct (consume_live env cd force_update users _ w Hlive)
    as (results & g' & w' & events & _ & Hall & Hlen & Hmap & _).
  destruct (decide (n ≤ length users)%nat) as [Hle|Hgt].
  - destruct (take_live env cd force_update n users _ w Hlive Hle)
      as (rs & g1 & w1 & Htake & Hn & Hstudents & _).
    replace (S (length users)) with (n + (S (length users) - n))%nat by lia.
    rewrite take_add, Htake.
    destruct (CourseGradeFactory.take env _ g1 w1) as [[rs' g2] w2].
    simpl. split; [done|]. by rewrite take_app_length'.
  - replace n with (S (length users) + (n - S (length users)))%nat at 1 3
      by lia.
    rewrite take_add, Hall, take_Finished. simpl. rewrite app_nil_r.
    rewrite (take_ge results) by lia. rewrite (take_ge users) by lia. done.
Qed.

Lemma partial_consumption_is_a_prefix_witness :
  let env := Sample.env false true false in
  let g := CourseGradeFactory.iter [Sample.alice; Sample.bob] Sample.args
             false in
  map CourseGradeFactory.student
    (CourseGradeFactory.take env 1 g Sample.empty_world).1.1
    = [Sample.alice] ∧
  (CourseGradeFactory.take env 1 g Sample.empty_world).1.1
    = take 1 (CourseGradeFactory.consume env g Sample.empty_world).1.1.
Proof.
  exact (partial_consumption_is_a_prefix
           (Sample.env false true false) [Sample.alice; Sample.bob]
           Sample.args false Sample.empty_world (Sample.context None) 1
           eq_refl).
Defined.

(** ** The ends of a batch *)

(** X15: When the shared course context cannot be built, [iter] fails on the
    first [next]: that error leaves the generator, no learner is graded,
    nothing is logged or cleared, and the generator is finished. *)
Theorem iter_without_a_course_context_fails_at_once
    (env : Collaborators) (users : list User.t) (args : CourseArgs.t)
    (force_update : bool) (w : World) (exc : Exception) :
  CourseData_init env None (iter_args args) = Raise exc →
  let g := CourseGradeFactory.iter users args force_update in
  CourseGradeFactory.next env g w
    = (CourseGradeFactory.Propagated (CourseGradeFactory.Thrown_exc exc),
       CourseGradeFactory.Finished, w) ∧
  CourseGradeFactory.consume env g w = ([], CourseGradeFactory.Finished, w).
Proof.
  intros Hcd g. subst g. unfold iter_args in Hcd.
  unfold CourseGradeFactory.consume, CourseGradeFactory.iter.
  cbn [CourseGradeFactory.pending CourseGradeFactory.take].
  unfold CourseGradeFactory.next. by rewrite Hcd.
Qed.

Lemma iter_without_a_course_context_fails_at_once_witness :
  let nothing :=
    {| CourseArgs.course := None;
       CourseArgs.collected_block_structure := None;
       CourseArgs.course_structure := None;
       CourseArgs.course_key := None |} in
  let g := CourseGradeFactory.iter [Sample.alice; Sample.bob] nothing false in
  CourseGradeFactory.next (Sample.env false true false) g Sample.empty_world
    = (CourseGradeFactory.Propagated
         (CourseGradeFactory.Thrown_exc ConfigurationError),
       CourseGradeFactory.Finished, Sample.empty_world) ∧
  CourseGradeFactory.consume (Sample.env false true false) g
    Sample.empty_world
    = ([], CourseGradeFactory.Finished, Sample.empty_world).
Proof.
  exact (iter_without_a_course_context_fails_at_once
           (Sample.env false true false) [Sample.alice; Sample.bob]
           {| CourseArgs.course := None;
              CourseArgs.collected_block_structure := None;
              CourseArgs.course_structure := None;
              CourseArgs.course_key := None |}
           false Sample.empty_world ConfigurationError eq_refl).
Defined.

Lemma throw_live env cd force_update users g w exc :
  live env cd force_update users g →
  (CourseGradeFactory.throw exc g w).1 = CourseGradeFactory.Finished ∧
  cache_clears (CourseGradeFactory.throw exc g w).2 = cache_clears w ∧
  grades (CourseGradeFactory.throw exc g w).2 = grades w.
Proof.
  intros [[tags ->] | (args & -> & _)]; simpl; [|done].
  split; [done|]. split; [|done].
  unfold CourseGradeFactory.unwind, CourseGradeFactory.timer_exit, emit.
  simpl. unfold cache_clears. simpl. rewrite count_app.
  unfold count at 2. simpl. lia.
Qed.

(** X16: as the code stands ([_course_transaction] has no [try]/[finally],
    the defect of C4), the cache of the course is cleared only when the
    consumer runs the sequence out: a consumer that takes [n] elements and
    then closes the generator (or throws into it) has the cache cleared once
    if it asked for more elements than there are learners, and not at all
    otherwise; not even when it took exactly one element per learner. *)
Theorem cache_is_cleared_only_on_exhaustion
    (env : Collaborators) (users : list User.t) (args : CourseArgs.t)
    (force_update : bool) (w : World) (cd : CourseData.t) (n : nat) :
  CourseData_init env None (iter_args args) = Return cd →
  let g := CourseGradeFactory.iter users args force_update in
  let cleared := if Nat.ltb (length users) n then 1%nat else 0%nat in
  count is_cache_clear
    (trace (CourseGradeFactory.take_then_close env n g w).2)
    = (count is_cache_clear (trace w) + cleared)%nat ∧
  (∀ exc,
     count is_cache_clear
       (trace (CourseGradeFactory.take_then_throw env n exc g w).2)
     = (count is_cache_clear (trace w) + cleared)%nat).
Proof.
  intros Hcd g cleared. subst g cleared.
  pose proof (live_iter env cd force_update users args Hcd) as Hlive.
  assert (∀ thrown,
            cache_clears
              (let '(_, g', w') :=
                 CourseGradeFactory.take env n
                   (CourseGradeFactory.iter users args force_update) w in
               (CourseGradeFactory.throw thrown g' w').2)
            = (cache_clears w
               + if Nat.ltb (length users) n then 1 else 0)%nat) as Hthrow.
  { intros thrown. destruct (Nat.ltb_spec (length users) n) as [Hlt|Hle].
    - destruct (consume_live env cd force_update users _ w Hlive)
        as (results & g' & w' & events & _ & Hall & _ & _ & Hc & He).
      replace n with (S (length users) + (n - S (length users)))%nat by lia.
      rewrite take_add, Hall, take_Finished. simpl.
      rewrite cache_clears_record, count_app, He, Hc.
      unfold count. simpl. lia.
    - destruct (take_live env cd force_update n users _ w Hlive Hle)
        as (rs & g1 & w1 & -> & _ & _ & Hl & Hc).
      destruct (throw_live env cd force_update _ g1 w1 thrown Hl)
        as (_ & Hc' & _).
      rewrite Hc', Hc. lia. }
  split; [|intros exc].
  - specialize (Hthrow CourseGradeFactory.GeneratorExit).
    unfold CourseGradeFactory.take_then_close, CourseGradeFactory.close.
    destruct (CourseGradeFactory.take env n _ w) as [[rs g1] w1].
    by destruct (CourseGradeFactory.throw _ g1 w1).
  - specialize (Hthrow (CourseGradeFactory.Thrown_exc exc)).
    unfold CourseGradeFactory.take_then_throw.
    destruct (CourseGradeFactory.take env n _ w) as [[rs g1] w1].
    by destruct (CourseGradeFactory.throw _ g1 w1).
Qed.

Lemma cache_is_cleared_only_on_exhaustion_witness :
  let env := Sample.env false true false in
  let g := CourseGradeFactory.iter [Sample.alice; Sample.bob] Sample.args
             false in
  count is_cache_clear
    (trace (CourseGradeFactory.take_then_close env 2 g Sample.empty_world).2)
    = 0%nat ∧
  count is_cache_clear
    (trace (CourseGradeFactory.take_then_close env 3 g Sample.empty_world).2)
    = 1%nat.
Proof.
  split.
  - exact (proj1 (cache_is_cleared_only_on_exhaustion
                    (Sample.env false true false) [Sample.alice; Sample.bob]
                    Sample.args false Sample.empty_world
                    (Sample.context None) 2 eq_refl)).
  - exact (proj1 (cache_is_cleared_only_on_exhaustion
                    (Sample.env false true false) [Sample.alice; Sample.bob]
                    Sample.args false Sample.empty_world
                    (Sample.context None) 3 eq_refl)).
Defined.

Lemma iter_touches_only_the_learners_it_yields_witness :
  let env := Sample.env false true false in
  let g := CourseGradeFactory.iter [Sample.alice; Sample.bob] Sample.args
             true in
  let w := Sample.world_with (Sample.row Sample.bob "hash-1") in
  map CourseGradeFactory.student (CourseGradeFactory.take env 1 g w).1.1
    = [Sample.alice] ∧
  grades (CourseGradeFactory.take env 1 g w).2
    !! (2, "course-v1:edX+DemoX+T1")
    = Some (Sample.row Sample.bob "hash-1").
Proof.
  split; [reflexivity|].
  refine (iter_touches_only_the_learners_it_yields
            (Sample.env false true false) 1
            (CourseGradeFactory.iter [Sample.alice; Sample.bob] Sample.args
               true)
            (Sample.world_with (Sample.row Sample.bob "hash-1"))
            2 "course-v1:edX+DemoX+T1" _).
  repeat constructor. simpl. discriminate.
Defined.

(** ** The engagement gate *)

Lemma _update_when_not_writing env user cd read_only w :
  (∀ b, compute env user cd = Return b →
        writes env read_only cd
          (CourseGrade.assign (CourseGrade.blank user cd) b) = false) →
  grades (snd (CourseGradeFactory._update env user cd read_only w))
    = grades w ∧
  count is_upsert
    (trace (snd (CourseGradeFactory._update env user cd read_only w)))
    = count is_upsert (trace w).
Proof.
  intros Hno.
  destruct (compute env user cd) as [exc|b] eqn:Hc.
  - rewrite (_update_raises env user cd read_only w exc Hc). simpl.
    rewrite count_app. change (count _ [_]) with 0%nat. split; [done|lia].
  - destruct (_update_returns env user cd read_only w b Hc)
      as (_ & _ & Hg & _).
    rewrite Hg, (_update_upserts env user cd read_only w b Hc), (Hno b eq_refl).
    split; [done|lia].
Qed.

(** X17: With the engagement gate on, the grade of a learner who has attempted
    nothing is never written: neither [update] nor [create], on any of its
    paths, changes the table. *)
Theorem engagement_gate_keeps_unattempted_grades_out_of_the_store
    (env : Collaborators) (user : User.t) (args : CourseArgs.t)
    (cd : CourseData.t) (w : World) :
  CourseData_init env (Some user) args = Return cd →
  WRITE_ONLY_IF_ENGAGED env = true →
  (∀ b, compute env user cd = Return b → Breakdown.attempted b = false) →
  grades (snd (CourseGradeFactory.update env user args w)) = grades w ∧
  count is_upsert (trace (snd (CourseGradeFactory.update env user args w)))
    = count is_upsert (trace w) ∧
  grades (snd (CourseGradeFactory.create env user args w)) = grades w ∧
  count is_upsert (trace (snd (CourseGradeFactory.create env user args w)))
    = count is_upsert (trace w).
Proof.
  intros Hcd Hgate Hidle.
  assert (∀ read_only w0,
            grades (snd (CourseGradeFactory._update env user cd read_only w0))
              = grades w0 ∧
            count is_upsert
              (trace (snd (CourseGradeFactory._update env user cd read_only
                             w0)))
              = count is_upsert (trace w0)) as Hupdate.
  { intros read_only w0. apply _update_when_not_writing.
    intros b Hc. unfold writes. simpl.
    rewrite Hgate, (Hidle b Hc). simpl. by rewrite andb_false_r. }
  assert (∀ what, count is_upsert
                    (trace (record w [LogInfo what (User.id user)]))
                  = count is_upsert (trace w)) as Hlog.
  { intros what. simpl. rewrite count_app. unfold count at 2. simpl. lia. }
  rewrite (update_unfold env user args cd w Hcd).
  split; [apply Hupdate|]. split; [apply Hupdate|].
  destruct (should_persist_grades env (CourseData.course_key cd)) eqn:Hp;
    [destruct (grades w !! (User.id user, CourseData.course_key cd))
       as [row|] eqn:Hrow|].
  - destruct (decide (PersistentCourseGrade.grading_policy_hash row
                      = CourseData.grading_policy_hash cd)) as [Heq|Hne].
    + rewrite (create_fast env user args cd w row Hcd Hp Hrow Heq).
      simpl snd. by rewrite Hlog.
    + rewrite (create_stale env user args cd w row Hcd Hp Hrow Hne).
      destruct (Hupdate false (record w [LogInfo "Read" (User.id user)]))
        as [-> ->]. by rewrite Hlog.
  - rewrite (create_not_found env user args cd w Hcd
               (_read_absent env user cd w Hrow)).
    destruct (assume_zero_if_absent env _); [|apply Hupdate].
    simpl snd. by rewrite Hlog.
  - rewrite (create_not_found env user args cd w Hcd
               (_read_disabled env user cd w Hp)).
    destruct (assume_zero_if_absent env _); [|apply Hupdate].
    simpl snd. by rewrite Hlog.
Qed.

Lemma engagement_gate_keeps_unattempted_grades_out_of_the_store_witness :
  let env := Sample.env false true true in
  let w := Sample.world_with (Sample.row Sample.bob "hash-1") in
  grades (snd (CourseGradeFactory.update env Sample.bob Sample.args w))
    = grades w ∧
  count is_upsert
    (trace (snd (CourseGradeFactory.update env Sample.bob Sample.args w)))
    = count is_upsert (trace w) ∧
  grades (snd (CourseGradeFactory.create env Sample.bob Sample.args w))
    = grades w ∧
  count is_upsert
    (trace (snd (CourseGradeFactory.create env Sample.bob Sample.args w)))
    = count is_upsert (trace w).
Proof.
  refine (engagement_gate_keeps_unattempted_grades_out_of_the_store
            (Sample.env false true true) Sample.bob Sample.args
            (Sample.context (Some Sample.bob))
            (Sample.world_with (Sample.row Sample.bob "hash-1"))
            eq_refl eq_refl _).
  intros b Hb. injection Hb as <-. reflexivity.
Defined.
